(** * SCF solver of qm_2019_sss_6: a shallow embedding of [scf.py]

    The Python class [scf] drives a Hartree-Fock fixed-point iteration on top
    of two collaborators: NumPy (dense arrays, [einsum], [linalg.eigh],
    [linalg.norm]) and the compiled module [fock_fast].  The embedding keeps
    the two collaborators behind interfaces ([NumPy], [FockFast]) and
    translates the methods of the class statement by statement: attribute
    reads and writes act on an explicit object, [print] appends to an output
    log, and every Python exception is an explicit [Raise]. *)

From Stdlib Require Import ZArith QArith Qround List String Bool Lia.
From Stdlib Require Import Ring ZArithRing.
Import ListNotations.
Local Open Scope string_scope.
Local Open Scope Z_scope.

(** ** Python values the class relies on *)

Module Py.

(** The exceptions that can leave a method of the class. *)
Inductive exn : Type :=
| ZeroDivisionError
| UnboundLocalError (name : string)
| AttributeError (name : string)
| ValueError
| LinAlgError.

(** Outcome of evaluating a Python expression. *)
Inductive result (A : Type) : Type :=
| Ok (a : A)
| Raise (e : exn).

Arguments Ok {A} a.
Arguments Raise {A} e.

Definition rbind {A B : Type} (r : result A) (k : A -> result B) : result B :=
  match r with
  | Ok a => k a
  | Raise e => Raise e
  end.

(** [a // b] on Python integers: floor division, [ZeroDivisionError] on a
    zero divisor.  [Z.div] rounds towards minus infinity like Python. *)
Definition floordiv (a b : Z) : result Z :=
  if b =? 0 then Raise ZeroDivisionError else Ok (a / b).

(** Reading a local variable that may not have been assigned yet. *)
Definition read_local {A : Type} (name : string) (v : option A) : result A :=
  match v with
  | Some a => Ok a
  | None => Raise (UnboundLocalError name)
  end.

(** Reading an attribute that may not have been created yet. *)
Definition read_attr {A : Type} (name : string) (v : option A) : result A :=
  match v with
  | Some a => Ok a
  | None => Raise (AttributeError name)
  end.

End Py.
Export Py.

Notation "'let*' x ':=' r 'in' k" := (rbind r (fun x => k))
  (at level 10, x name, r at level 100, k at level 200).

(** ** The collaborators *)

(** What the class uses of NumPy.  [float] is a Python float / [float64];
    [matrix], [vector] and [tensor] are arrays of rank 2, 1 and 3.  An
    operation that NumPy can refuse (shape mismatch, failed decomposition)
    returns a [result]. *)
Class NumPy : Type := {
  float : Type;
  matrix : Type;
  vector : Type;
  tensor : Type;
  (** the float a decimal literal of the source denotes *)
  float_lit : Q -> float;
  (** [a + b], [a - b], [a < b] on floats *)
  float_add : float -> float -> float;
  float_sub : float -> float -> float;
  float_lt : float -> float -> bool;
  (** [a + b], [a - b] on arrays, [c * a] with a float [c] *)
  arr_add : matrix -> matrix -> result matrix;
  arr_sub : matrix -> matrix -> result matrix;
  arr_scale : float -> matrix -> matrix;
  (** [np.linalg.norm(a)], [np.size(a, 0)], [np.linalg.eigh(a)] *)
  linalg_norm : matrix -> float;
  size0 : matrix -> Z;
  linalg_eigh : matrix -> result (vector * matrix);
  (** [a[:, :k]], [a.T], [a @ b] *)
  take_cols : matrix -> Z -> matrix;
  transpose : matrix -> matrix;
  matmul : matrix -> matrix -> result matrix;
  (** [np.einsum(subscripts, a, b)] and
      [np.einsum(subscripts, a, b, c, d, optimize=True)] *)
  einsum2 : string -> matrix -> matrix -> result float;
  einsum4 : string -> tensor -> tensor -> matrix -> matrix -> result matrix
}.

(** The compiled module [fock_fast], imported as [ff]. *)
Class FockFast (np : NumPy) : Type := {
  ff_fast_fock_matrix : matrix -> matrix -> matrix -> float -> result matrix
}.

(** ** The class [scf] *)

Section Solver.

Context {np : NumPy} {ff : FockFast np}.

(** [a.copy()]: arrays are values here, so a copy is the array itself.  The
    only in-place updates of the class ([+=] and [-=] in
    [calculate_fock_matrix]) act on such a copy. *)
Definition copy (a : matrix) : matrix := a.

(** The attributes of an instance.  [fock_matrix], [energy_scf] and
    [total_energy] do not exist until [initialize] or [kernel] creates
    them. *)
Record scf : Type := {
  hamiltonian_matrix : matrix;
  interaction_matrix : matrix;
  density_matrix : matrix;
  chi_tensor : tensor;
  energy_ion : float;
  ionic_charge : Z;
  converged : bool;
  orbitals_per_atom : Z;
  fock_matrix : option matrix;
  energy_scf : option float;
  total_energy : option float
}.

(** [__init__] *)
Definition __init__ (hamiltonian_matrix interaction_matrix density_matrix : matrix)
    (chi_tensor : tensor) (energy_ion : float)
    (ionic_charge orbitals_per_atom : Z) : scf :=
  {| hamiltonian_matrix := hamiltonian_matrix;
     interaction_matrix := interaction_matrix;
     density_matrix := density_matrix;
     chi_tensor := chi_tensor;
     energy_ion := energy_ion;
     ionic_charge := ionic_charge;
     converged := false;
     orbitals_per_atom := orbitals_per_atom;
     fock_matrix := None;
     energy_scf := None;
     total_energy := None |}.

Definition set_density_matrix (v : matrix) (s : scf) : scf :=
  {| hamiltonian_matrix := hamiltonian_matrix s;
     interaction_matrix := interaction_matrix s;
     density_matrix := v;
     chi_tensor := chi_tensor s;
     energy_ion := energy_ion s;
     ionic_charge := ionic_charge s;
     converged := converged s;
     orbitals_per_atom := orbitals_per_atom s;
     fock_matrix := fock_matrix s;
     energy_scf := energy_scf s;
     total_energy := total_energy s |}.

Definition set_fock_matrix (v : matrix) (s : scf) : scf :=
  {| hamiltonian_matrix := hamiltonian_matrix s;
     interaction_matrix := interaction_matrix s;
     density_matrix := density_matrix s;
     chi_tensor := chi_tensor s;
     energy_ion := energy_ion s;
     ionic_charge := ionic_charge s;
     converged := converged s;
     orbitals_per_atom := orbitals_per_atom s;
     fock_matrix := Some v;
     energy_scf := energy_scf s;
     total_energy := total_energy s |}.

Definition set_converged (v : bool) (s : scf) : scf :=
  {| hamiltonian_matrix := hamiltonian_matrix s;
     interaction_matrix := interaction_matrix s;
     density_matrix := density_matrix s;
     chi_tensor := chi_tensor s;
     energy_ion := energy_ion s;
     ionic_charge := ionic_charge s;
     converged := v;
     orbitals_per_atom := orbitals_per_atom s;
     fock_matrix := fock_matrix s;
     energy_scf := energy_scf s;
     total_energy := total_energy s |}.

Definition set_energy_scf (v : float) (s : scf) : scf :=
  {| hamiltonian_matrix := hamiltonian_matrix s;
     interaction_matrix := interaction_matrix s;
     density_matrix := density_matrix s;
     chi_tensor := chi_tensor s;
     energy_ion := energy_ion s;
     ionic_charge := ionic_charge s;
     converged := converged s;
     orbitals_per_atom := orbitals_per_atom s;
     fock_matrix := fock_matrix s;
     energy_scf := Some v;
     total_energy := total_energy s |}.

Definition set_total_energy (v : float) (s : scf) : scf :=
  {| hamiltonian_matrix := hamiltonian_matrix s;
     interaction_matrix := interaction_matrix s;
     density_matrix := density_matrix s;
     chi_tensor := chi_tensor s;
     energy_ion := energy_ion s;
     ionic_charge := ionic_charge s;
     converged := converged s;
     orbitals_per_atom := orbitals_per_atom s;
     fock_matrix := fock_matrix s;
     energy_scf := energy_scf s;
     total_energy := Some v |}.

(** *** Methods that only read the instance *)

(** [fast_fock_matrix]: the accelerated path, one call into [ff]. *)
Definition fast_fock_matrix (self : scf)
    (hamiltonian_matrix interaction_matrix density_matrix : matrix)
    : result matrix :=
  let dipole := float_lit (2781629275106456 # 1000000000000000) in
  ff_fast_fock_matrix hamiltonian_matrix interaction_matrix density_matrix dipole.

(** [calculate_fock_matrix]: the einsum path.  The four parameters are
    accepted and never read; every operand is an attribute of [self]. *)
Definition calculate_fock_matrix (self : scf)
    (arg_hamiltonian_matrix arg_interaction_matrix arg_density_matrix : matrix)
    (arg_chi_tensor : tensor) : result matrix :=
  let fock_matrix := copy (hamiltonian_matrix self) in
  let* coulomb := einsum4 "pqt,rsu,tu,rs" (chi_tensor self) (chi_tensor self)
                    (interaction_matrix self) (density_matrix self) in
  let* fock_matrix := arr_add fock_matrix (arr_scale (float_lit 2) coulomb) in
  let* exchange := einsum4 "rqt,psu,tu,rs" (chi_tensor self) (chi_tensor self)
                     (interaction_matrix self) (density_matrix self) in
  arr_sub fock_matrix exchange.

(** The occupied-orbital count, first statement of
    [calculate_density_matrix]:
    [(self.ionic_charge // 2) * np.size(fock_matrix, 0) // self.orbitals_per_atom].
    [*] and [//] have the same precedence and associate to the left. *)
Definition num_occ (self : scf) (fock_matrix : matrix) : result Z :=
  floordiv ((ionic_charge self / 2) * size0 fock_matrix) (orbitals_per_atom self).

(** [calculate_density_matrix] *)
Definition calculate_density_matrix (self : scf) (fock_matrix : matrix)
    : result matrix :=
  let* num_occ := num_occ self fock_matrix in
  let* eig := linalg_eigh fock_matrix in
  let orbital_matrix := snd eig in
  let occupied_matrix := take_cols orbital_matrix num_occ in
  matmul occupied_matrix (transpose occupied_matrix).

(** [calculate_energy_scf] *)
Definition calculate_energy_scf (self : scf)
    (hamiltonian_matrix fock_matrix density_matrix : matrix) : result float :=
  let* sum := arr_add hamiltonian_matrix fock_matrix in
  einsum2 "pq,pq" sum density_matrix.

(** *** Methods that write the instance or print *)

(** What a method can change: the instance and the standard output. *)
Record world : Type := {
  obj : scf;
  stdout : list string
}.

Definition M (A : Type) : Type := world -> result A * world.

Definition ret {A : Type} (a : A) : M A := fun w => (Ok a, w).

Definition bind {A B : Type} (m : M A) (k : A -> M B) : M B :=
  fun w =>
    match m w with
    | (Ok a, w') => k a w'
    | (Raise e, w') => (Raise e, w')
    end.

Definition lift {A : Type} (r : result A) : M A := fun w => (r, w).

Definition get_self : M scf := fun w => (Ok (obj w), w).

Definition modify_self (f : scf -> scf) : M unit :=
  fun w => (Ok tt, {| obj := f (obj w); stdout := stdout w |}).

Definition print (line : string) : M unit :=
  fun w => (Ok tt, {| obj := obj w; stdout := stdout w ++ [line] |}).

End Solver.

Notation "x <- m ;; k" := (bind m (fun x => k))
  (at level 61, m at next level, right associativity).
Notation "m ;;; k" := (bind m (fun _ => k))
  (at level 61, right associativity).

Section Cycle.

Context {np : NumPy} {ff : FockFast np}.

(** The local variables of [scf_cycle] that live across iterations.
    [density_matrix] and [fock_matrix] are unbound until the first pass
    through the loop body assigns them. *)
Record frame : Type := {
  old_density_matrix : matrix;
  local_density_matrix : option matrix;
  local_fock_matrix : option matrix
}.

(** How a pass through the loop body ends: at the bottom of the body, or in
    the [return] inside the [if]. *)
Inductive control : Type :=
| Next (fr : frame)
| Return (value : matrix * matrix).

(** The body of the [for] loop of [scf_cycle]. *)
Definition scf_body (mixing_fraction convergence_tolerance : float)
    (fr : frame) : M control :=
  self <- get_self ;;
  fock_matrix <- lift (fast_fock_matrix self (hamiltonian_matrix self)
                         (interaction_matrix self) (density_matrix self)) ;;
  self <- get_self ;;
  density_matrix <- lift (calculate_density_matrix self fock_matrix) ;;
  diff <- lift (arr_sub (old_density_matrix fr) density_matrix) ;;
  let error_norm := linalg_norm diff in
  if float_lt error_norm convergence_tolerance then
    modify_self (set_converged true) ;;;
    ret (Return (density_matrix, fock_matrix))
  else
    mixed <- lift (arr_add
                    (arr_scale mixing_fraction density_matrix)
                    (arr_scale (float_sub (float_lit 1) mixing_fraction)
                       (old_density_matrix fr))) ;;
    ret (Next {| old_density_matrix := mixed;
                 local_density_matrix := Some density_matrix;
                 local_fock_matrix := Some fock_matrix |}).

(** [for iteration in range(n): body]; the loop variable is not read. *)
Fixpoint scf_loop (mixing_fraction convergence_tolerance : float)
    (n : nat) (fr : frame) : M control :=
  match n with
  | O => ret (Next fr)
  | S n' =>
      c <- scf_body mixing_fraction convergence_tolerance fr ;;
      match c with
      | Next fr' => scf_loop mixing_fraction convergence_tolerance n' fr'
      | Return value => ret (Return value)
      end
  end.

(** [scf_cycle]; [range(max_scf_iterations)] is empty for a count that is
    zero or negative. *)
Definition scf_cycle (max_scf_iterations : Z)
    (mixing_fraction convergence_tolerance : float) : M (matrix * matrix) :=
  self <- get_self ;;
  let fr := {| old_density_matrix := copy (density_matrix self);
               local_density_matrix := None;
               local_fock_matrix := None |} in
  c <- scf_loop mixing_fraction convergence_tolerance
         (Z.to_nat max_scf_iterations) fr ;;
  match c with
  | Return value => ret value
  | Next fr =>
      print "WARNING: SCF cycle didn't converge" ;;;
      density_matrix <- lift (read_local "density_matrix" (local_density_matrix fr)) ;;
      fock_matrix <- lift (read_local "fock_matrix" (local_fock_matrix fr)) ;;
      ret (density_matrix, fock_matrix)
  end.

(** The defaults of [scf_cycle]'s keyword parameters. *)
Definition default_max_scf_iterations : Z := 100.
Definition default_mixing_fraction : float := float_lit (25 # 100).
Definition default_convergence_tolerance : float := float_lit (1 # 10000).

(** [initialize] *)
Definition initialize : M unit :=
  self <- get_self ;;
  fock <- lift (fast_fock_matrix self (hamiltonian_matrix self)
                  (interaction_matrix self) (density_matrix self)) ;;
  modify_self (set_fock_matrix fock) ;;;
  self <- get_self ;;
  fock <- lift (read_attr "fock_matrix" (fock_matrix self)) ;;
  density <- lift (calculate_density_matrix self fock) ;;
  modify_self (set_density_matrix density).

(** [kernel] *)
Definition kernel : M float :=
  initialize ;;;
  value <- scf_cycle default_max_scf_iterations default_mixing_fraction
             default_convergence_tolerance ;;
  modify_self (set_density_matrix (fst value)) ;;;
  modify_self (set_fock_matrix (snd value)) ;;;
  self <- get_self ;;
  fock <- lift (read_attr "fock_matrix" (fock_matrix self)) ;;
  energy <- lift (calculate_energy_scf self (hamiltonian_matrix self) fock
                    (density_matrix self)) ;;
  modify_self (set_energy_scf energy) ;;;
  self <- get_self ;;
  energy_scf <- lift (read_attr "energy_scf" (energy_scf self)) ;;
  let total := float_add (energy_ion self) energy_scf in
  modify_self (set_total_energy total) ;;;
  self <- get_self ;;
  lift (read_attr "total_energy" (total_energy self)).

End Cycle.

(** ** Quantities the statements below are phrased with *)

Section Reference.

Context {np : NumPy} {ff : FockFast np}.

(** The reference formula of the effective operator as the specification
    words it: [F = H + 2 * Coulomb(chi, M, D) - Exchange(chi, M, D)], the two
    contractions being the [einsum]s with subscripts ['pqt,rsu,tu,rs'] and
    ['rqt,psu,tu,rs']. *)
Definition coulomb (chi : tensor) (M D : matrix) : result matrix :=
  einsum4 "pqt,rsu,tu,rs" chi chi M D.

Definition exchange (chi : tensor) (M D : matrix) : result matrix :=
  einsum4 "rqt,psu,tu,rs" chi chi M D.

Definition reference_fock (H M D : matrix) (chi : tensor) : result matrix :=
  let* J := coulomb chi M D in
  let* HJ := arr_add H (arr_scale (float_lit 2) J) in
  let* K := exchange chi M D in
  arr_sub HJ K.

(** One damped-mixing update of the comparison baseline:
    [mixing_fraction * D + (1.0 - mixing_fraction) * old]. *)
Definition mix (mixing_fraction : float) (D old : matrix) : result matrix :=
  arr_add (arr_scale mixing_fraction D)
          (arr_scale (float_sub (float_lit 1) mixing_fraction) old).

(** The comparison baseline after [k] mixing updates towards [D], starting
    from [D0]. *)
Fixpoint baseline (mixing_fraction : float) (D0 D : matrix) (k : nat)
    : result matrix :=
  match k with
  | O => Ok D0
  | S k' =>
      let* old := baseline mixing_fraction D0 D k' in
      mix mixing_fraction D old
  end.

(** Whether the residual [norm(old - D)] is strictly below the tolerance. *)
Definition below (convergence_tolerance : float) (old D : matrix)
    : result bool :=
  let* diff := arr_sub old D in
  Ok (float_lt (linalg_norm diff) convergence_tolerance).

(** The accelerated path on the attributes of the instance, as the loop of
    [scf_cycle] and [initialize] call it. *)
Definition stored_fock (s : scf) : result matrix :=
  fast_fock_matrix s (hamiltonian_matrix s) (interaction_matrix s)
                   (density_matrix s).

(** The world after [self.converged = True]. *)
Definition mark_converged (w : world) : world :=
  {| obj := set_converged true (obj w); stdout := stdout w |}.

(** None of the first [k] comparisons against the baseline falls below the
    tolerance (and each of them can be made). *)
Definition no_convergence_before (mixing_fraction convergence_tolerance : float)
    (D0 D : matrix) (k : nat) : Prop :=
  forall j, (j < k)%nat ->
    exists old, baseline mixing_fraction D0 D j = Ok old
                /\ below convergence_tolerance old D = Ok false.

(** The reordering of the occupied-orbital count that the specification
    warns against: [Q // (2 * K) * n]. *)
Definition num_occ_reordered (Q n K : Z) : Z := (Q / (2 * K)) * n.

(** The text of the warning of [scf_cycle]. *)
Definition warning : string := "WARNING: SCF cycle didn't converge".

End Reference.

(** ** A reference model of the arrays

    Arrays as shapes with nested lists of entries, over any scalars.  The
    sums of [einsum], [@] and [norm] are taken in index order; NumPy's own
    order of summation is not fixed, so results agree with NumPy's exactly
    where the scalar arithmetic is exact.  Shapes that differ are refused
    with [ValueError] (broadcasting a length-one axis is left out: the class
    never relies on it). *)

Module ListModel.

(** The scalar operations the arrays are built on. *)
Record scalar : Type := {
  carrier : Type;
  s0 : carrier;
  s1 : carrier;
  sadd : carrier -> carrier -> carrier;
  ssub : carrier -> carrier -> carrier;
  smul : carrier -> carrier -> carrier;
  slt : carrier -> carrier -> bool;
  ssqrt : carrier -> carrier;
  slit : Q -> carrier
}.

Section Arrays.

Variable S : scalar.
Local Abbreviation R := (carrier S).

(** A rank-2 array: its shape and its rows. *)
Record mat : Type := {
  nrows : nat;
  ncols : nat;
  rows : list (list R)
}.

(** A rank-3 array. *)
Record ten : Type := {
  dim0 : nat;
  dim1 : nat;
  dim2 : nat;
  cells : list (list (list R))
}.

Definition tabulate {A : Type} (n : nat) (f : nat -> A) : list A :=
  map f (seq 0 n).

(** The array of shape [(n, m)] with entry [f i j] at [(i, j)]. *)
Definition mk (n m : nat) (f : nat -> nat -> R) : mat :=
  {| nrows := n; ncols := m;
     rows := tabulate n (fun i => tabulate m (f i)) |}.

(** [a[i, j]] *)
Definition get (a : mat) (i j : nat) : R :=
  nth j (nth i (rows a) []) (s0 S).

(** [t[p, q, r]] *)
Definition tget (t : ten) (p q r : nat) : R :=
  nth r (nth q (nth p (cells t) []) []) (s0 S).

(** [f 0 + f 1 + ... + f (n-1)], from the left. *)
Fixpoint sum_n (n : nat) (f : nat -> R) : R :=
  match n with
  | O => s0 S
  | Datatypes.S k => sadd S (sum_n k f) (f k)
  end.

(** The scalar [n]: [n] ones added up. *)
Definition of_nat (n : nat) : R := sum_n n (fun _ => s1 S).

Definition same_shape (a b : mat) : bool :=
  Nat.eqb (nrows a) (nrows b) && Nat.eqb (ncols a) (ncols b).

Definition pointwise (op : R -> R -> R) (a b : mat) : result mat :=
  if same_shape a b
  then Ok (mk (nrows a) (ncols a) (fun i j => op (get a i j) (get b i j)))
  else Raise ValueError.

Definition madd : mat -> mat -> result mat := pointwise (sadd S).
Definition msub : mat -> mat -> result mat := pointwise (ssub S).

Definition mscale (c : R) (a : mat) : mat :=
  mk (nrows a) (ncols a) (fun i j => smul S c (get a i j)).

(** The Frobenius norm, NumPy's default for a rank-2 array. *)
Definition mnorm (a : mat) : R :=
  ssqrt S (sum_n (nrows a) (fun i =>
            sum_n (ncols a) (fun j => smul S (get a i j) (get a i j)))).

(** The end of the slice [:k] on an axis of length [len]: a negative [k]
    counts from the end, and the slice is clipped to the axis. *)
Definition slice_stop (len : nat) (k : Z) : nat :=
  if k <? 0 then Z.to_nat (Z.max 0 (Z.of_nat len + k))
  else Nat.min (Z.to_nat k) len.

Definition mtake_cols (a : mat) (k : Z) : mat :=
  mk (nrows a) (slice_stop (ncols a) k) (get a).

Definition mtranspose (a : mat) : mat :=
  mk (ncols a) (nrows a) (fun i j => get a j i).

Definition mmatmul (a b : mat) : result mat :=
  if Nat.eqb (ncols a) (nrows b)
  then Ok (mk (nrows a) (ncols b) (fun i j =>
             sum_n (ncols a) (fun k => smul S (get a i k) (get b k j))))
  else Raise ValueError.

(** [sum_{p,q} a[p,q] * b[p,q]] *)
Definition contract_pq_pq (a b : mat) : R :=
  sum_n (nrows a) (fun p =>
    sum_n (ncols a) (fun q => smul S (get a p q) (get b p q))).

(** [einsum] with two operands; the class uses the subscripts ['pq,pq']. *)
Definition meinsum2 (subscripts : string) (a b : mat) : result R :=
  if String.eqb subscripts "pq,pq" then
    if same_shape a b then Ok (contract_pq_pq a b) else Raise ValueError
  else Raise ValueError.

(** ['pqt,rsu,tu,rs']: entry [(p,q)] is
    [sum_{r,s,t,u} x[p,q,t] * y[r,s,u] * m[t,u] * d[r,s]]. *)
Definition contract_coulomb (x y : ten) (m d : mat) : mat :=
  mk (dim0 x) (dim1 x) (fun p q =>
    sum_n (dim0 y) (fun r => sum_n (dim1 y) (fun s =>
    sum_n (dim2 x) (fun t => sum_n (dim2 y) (fun u =>
      smul S (smul S (smul S (tget x p q t) (tget y r s u)) (get m t u))
             (get d r s)))))).

(** ['rqt,psu,tu,rs']: entry [(p,q)] is
    [sum_{r,s,t,u} x[r,q,t] * y[p,s,u] * m[t,u] * d[r,s]]. *)
Definition contract_exchange (x y : ten) (m d : mat) : mat :=
  mk (dim0 y) (dim1 x) (fun p q =>
    sum_n (dim0 x) (fun r => sum_n (dim1 y) (fun s =>
    sum_n (dim2 x) (fun t => sum_n (dim2 y) (fun u =>
      smul S (smul S (smul S (tget x r q t) (tget y p s u)) (get m t u))
             (get d r s)))))).

(** [einsum] with four operands, for the two subscript strings of
    [calculate_fock_matrix]; every label must have one length. *)
Definition meinsum4 (subscripts : string) (x y : ten) (m d : mat) : result mat :=
  if String.eqb subscripts "pqt,rsu,tu,rs" then
    if Nat.eqb (nrows m) (dim2 x) && Nat.eqb (ncols m) (dim2 y)
       && Nat.eqb (nrows d) (dim0 y) && Nat.eqb (ncols d) (dim1 y)
    then Ok (contract_coulomb x y m d) else Raise ValueError
  else if String.eqb subscripts "rqt,psu,tu,rs" then
    if Nat.eqb (nrows m) (dim2 x) && Nat.eqb (ncols m) (dim2 y)
       && Nat.eqb (nrows d) (dim0 x) && Nat.eqb (ncols d) (dim1 y)
    then Ok (contract_exchange x y m d) else Raise ValueError
  else Raise ValueError.

(** [np.trace(a)] *)
Definition trace (a : mat) : R := sum_n (nrows a) (fun i => get a i i).

(** The arrays over [S] as an implementation of the NumPy interface, for a
    given eigensolver. *)
Definition numpy (eigh : mat -> result (list R * mat)) : NumPy :=
  {| float := R;
     matrix := mat;
     vector := list R;
     tensor := ten;
     float_lit := slit S;
     float_add := sadd S;
     float_sub := ssub S;
     float_lt := slt S;
     arr_add := madd;
     arr_sub := msub;
     arr_scale := mscale;
     linalg_norm := mnorm;
     size0 := fun a => Z.of_nat (nrows a);
     linalg_eigh := eigh;
     take_cols := mtake_cols;
     transpose := mtranspose;
     matmul := mmatmul;
     einsum2 := meinsum2;
     einsum4 := meinsum4 |}.

(** An eigensolver for diagonal input: on a square diagonal array whose
    diagonal strictly ascends the decomposition is the diagonal itself
    with the identity as eigenvectors; any other input is refused. *)
Definition is_zero (x : R) : bool :=
  negb (slt S x (s0 S)) && negb (slt S (s0 S) x).

Definition diagonal_ascending (a : mat) : bool :=
  Nat.eqb (nrows a) (ncols a)
  && forallb (fun i =>
       forallb (fun j => Nat.eqb i j || is_zero (get a i j))
               (seq 0 (ncols a)))
     (seq 0 (nrows a))
  && forallb (fun i => slt S (get a i i) (get a (Datatypes.S i) (Datatypes.S i)))
     (seq 0 (pred (nrows a))).

Definition identity (n : nat) : mat :=
  mk n n (fun i j => if Nat.eqb i j then s1 S else s0 S).

Definition eigh_diagonal (a : mat) : result (list R * mat) :=
  if diagonal_ascending a
  then Ok (tabulate (nrows a) (fun i => get a i i), identity (nrows a))
  else Raise LinAlgError.

(** What [np.linalg.eigh] promises of its result [(w, v)] on a symmetric
    [f]: [v] is square of the size of [f], its columns have norm one, column
    [k] is an eigenvector of [f] for the eigenvalue [w[k]], and the
    eigenvalues ascend. *)
Record eigh_contract (f : mat) (w : list R) (v : mat) : Prop := {
  eigh_symmetric : mtranspose f = f;
  eigh_rows : nrows v = nrows f;
  eigh_cols : ncols v = nrows f;
  eigh_values : List.length w = nrows f;
  eigh_unit : forall k, (k < nrows f)%nat ->
    sum_n (nrows f) (fun i => smul S (get v i k) (get v i k)) = s1 S;
  eigh_vector : forall i k, (i < nrows f)%nat -> (k < nrows f)%nat ->
    sum_n (nrows f) (fun j => smul S (get f i j) (get v j k))
    = smul S (nth k w (s0 S)) (get v i k);
  eigh_ascending : forall k l, (k <= l)%nat -> (l < nrows f)%nat ->
    slt S (nth l w (s0 S)) (nth k w (s0 S)) = false
}.

End Arrays.

Arguments nrows {S} m.
Arguments ncols {S} m.
Arguments rows {S} m.
Arguments dim0 {S} t.
Arguments dim1 {S} t.
Arguments dim2 {S} t.
Arguments cells {S} t.

End ListModel.

(** ** Concrete systems *)

Module Examples.

Import ListModel.

(** Exact rationals, every result reduced to lowest terms so that equal
    numbers are equal terms.  [qsqrt] is exact on squares of rationals,
    which is all the systems below take roots of. *)
Definition qadd (a b : Q) : Q := Qred (a + b).
Definition qsub (a b : Q) : Q := Qred (a - b).
Definition qmul (a b : Q) : Q := Qred (a * b).
Definition qlt (a b : Q) : bool := negb (Qle_bool b a).
Definition qsqrt (a : Q) : Q :=
  let r := Qred a in Z.sqrt (Qnum r) # Pos.sqrt (Qden r).

Definition rationals : scalar :=
  {| carrier := Q; s0 := 0%Q; s1 := 1%Q;
     sadd := qadd; ssub := qsub; smul := qmul;
     slt := qlt; ssqrt := qsqrt; slit := Qred |}.

(** Exact integers; a decimal literal is rounded down. *)
Definition integers : scalar :=
  {| carrier := Z; s0 := 0; s1 := 1;
     sadd := Z.add; ssub := Z.sub; smul := Z.mul;
     slt := Z.ltb; ssqrt := Z.sqrt; slit := Qfloor |}.

Definition qnumpy : NumPy := numpy rationals (eigh_diagonal rationals).
Definition znumpy : NumPy := numpy integers (eigh_diagonal integers).

(** Modelled from the spec: the compiled module [fock_fast] is not among the
    sources.  Its contract is to return, for its arguments [H], [M], [D],
    what the reference tensor-contraction formula gives for them, with the
    coupling tensor [chi] that its dipole constant stands for. *)
Definition modelled_fock_fast (np : NumPy) (chi : tensor) : FockFast np :=
  {| ff_fast_fock_matrix := fun H M D _ => reference_fock H M D chi |}.

(** One atom with one orbital. *)
Definition mat1 (x : Q) : mat rationals :=
  Build_mat rationals 1 1 [[x]].

Definition chi1 : ten rationals :=
  Build_ten rationals 1 1 1 [[[1%Q]]].

Definition qff : FockFast qnumpy := modelled_fock_fast qnumpy chi1.

(** [scf(H, M, D0, chi, E_ion, Q, K)] with [H = [[-1]]], [M = [[1/2]]],
    [D0 = [[0]]], [E_ion = 1], [Q = 2], [K = 1]. *)
Definition atom : @scf qnumpy :=
  @__init__ qnumpy (mat1 (-1)) (mat1 (1 # 2)) (mat1 0) chi1 1%Q 2 1.

Definition atom_world : @world qnumpy := {| obj := atom; stdout := [] |}.

(** The same system with the density [[[1]]] stored. *)
Definition atom_fixed : @scf qnumpy :=
  @__init__ qnumpy (mat1 (-1)) (mat1 (1 # 2)) (mat1 1) chi1 1%Q 2 1.

(** Two orbitals on one atom, over the integers: [F = diag(1, 2)],
    [Q = 2], [K = 2]. *)
Definition diag12 : mat integers :=
  Build_mat integers 2 2 [[1; 0]; [0; 2]].

Definition chi2 : ten integers :=
  Build_ten integers 2 2 1 [[[1]; [0]]; [[0]; [0]]].

Definition pair : @scf znumpy :=
  @__init__ znumpy diag12 (Build_mat integers 1 1 [[1]]) diag12 chi2 0 2 2.

(** Two atoms with two orbitals each over the integers, [Q = 4], [K = 2],
    and the same system with [Q = 3]. *)
Definition chi4 : ten integers :=
  Build_ten integers 4 4 2
    (tabulate 4 (fun p => tabulate 4 (fun q => tabulate 2 (fun t =>
       if Nat.eqb p q && Nat.eqb (Nat.div p 2) t then 1 else 0)))).

Definition quad : @scf znumpy :=
  @__init__ znumpy (identity integers 4) (identity integers 2)
        (identity integers 4) chi4 0 4 2.

Definition quad_odd : @scf znumpy :=
  @__init__ znumpy (identity integers 4) (identity integers 2)
        (identity integers 4) chi4 0 3 2.

(** Two atoms with one orbital each, [Q = 6], [K = 1]: the formula counts
    six occupied orbitals where the system has two. *)
Definition crowded : @scf znumpy :=
  @__init__ znumpy diag12 (identity integers 2) diag12
        (Build_ten integers 2 2 2
           (tabulate 2 (fun p => tabulate 2 (fun q => tabulate 2 (fun t =>
              if Nat.eqb p q && Nat.eqb p t then 1 else 0)))))
        0 6 1.

End Examples.

(** ** Relations between the instance before and after a method *)

Section Frames.

Context {np : NumPy}.

(** The system parameters of [s'] are those of [s]. *)
Definition same_parameters (s s' : scf) : Prop :=
  hamiltonian_matrix s' = hamiltonian_matrix s
  /\ interaction_matrix s' = interaction_matrix s
  /\ chi_tensor s' = chi_tensor s
  /\ energy_ion s' = energy_ion s
  /\ ionic_charge s' = ionic_charge s
  /\ orbitals_per_atom s' = orbitals_per_atom s.

(** [converged], once [True] in [s], is [True] in [s']. *)
Definition keeps_converged (s s' : scf) : Prop :=
  converged s = true -> converged s' = true.

(** [s'] agrees with [s] on the attributes the loop of [scf_cycle] reads. *)
Definition same_cycle_inputs (s s' : scf) : Prop :=
  hamiltonian_matrix s' = hamiltonian_matrix s
  /\ interaction_matrix s' = interaction_matrix s
  /\ density_matrix s' = density_matrix s
  /\ ionic_charge s' = ionic_charge s
  /\ orbitals_per_atom s' = orbitals_per_atom s.

End Frames.

(** ** More of the reference arrays *)

Module ListModelMore.

Import ListModel.

Section MoreArrays.

Variable S : scalar.
Local Abbreviation R := (carrier S).

(** [a] to the power [k]. *)
Fixpoint spow (a : R) (k : nat) : R :=
  match k with
  | O => s1 S
  | Datatypes.S k' => smul S a (spow a k')
  end.

(** The first [n] columns of [v], each of [n] entries, are orthonormal. *)
Definition orthonormal_columns (v : mat S) (n : nat) : Prop :=
  forall k l, (k < n)%nat -> (l < n)%nat ->
    sum_n S n (fun i => smul S (get S v i k) (get S v i l))
    = if Nat.eqb k l then s1 S else s0 S.

(** The array of shape [(n, m)] filled with zeros. *)
Definition zeros (n m : nat) : mat S := mk S n m (fun _ _ => s0 S).

End MoreArrays.

End ListModelMore.

(** ** More concrete systems *)

Module MoreExamples.

Import ListModel Examples.

(** The one-orbital system with [orbitals_per_atom = 0]. *)
Definition atom_k0 : @scf qnumpy :=
  @__init__ qnumpy (mat1 (-1)) (mat1 (1 # 2)) (mat1 0) chi1 1%Q 2 0.

Definition atom_k0_world : @world qnumpy := {| obj := atom_k0; stdout := [] |}.

(** Two orbitals on one atom with [Q = -2], [K = 2]: the occupied count is
    [(-2 // 2) * 2 // 2 = -1]. *)
Definition pair_negative : @scf znumpy :=
  @__init__ znumpy diag12 (Build_mat integers 1 1 [[1]]) diag12 chi2 0 (-2) 2.

(** Two orbitals on one atom with [Q = 1], [K = 2]: no occupied orbital. *)
Definition pair_single : @scf znumpy :=
  @__init__ znumpy diag12 (Build_mat integers 1 1 [[1]]) diag12 chi2 0 1 2.

(** Two orbitals on one atom over the integers, built with the zero density:
    [H = diag(1, 2)], [M = [[1]]], [D0 = 0], [Q = 2], [K = 2], with the
    accelerated path modelled by the reference formula for [chi2]. *)
Definition zff : FockFast znumpy := modelled_fock_fast znumpy chi2.

Definition pair_empty : @scf znumpy :=
  @__init__ znumpy diag12 (Build_mat integers 1 1 [[1]])
            (ListModelMore.zeros integers 2 2) chi2 0 2 2.

Definition pair_empty_world : @world znumpy :=
  {| obj := pair_empty; stdout := [] |}.

(** The one-orbital system as [kernel] leaves it. *)
Definition atom_solved : @scf qnumpy :=
  @Build_scf qnumpy (mat1 (-1)) (mat1 (1 # 2)) (mat1 1) chi1 1%Q 2 true 1
    (Some (mat1 (-1 # 2))) (Some (-3 # 2)%Q) (Some (-1 # 2)%Q).

Definition atom_solved_world : @world qnumpy :=
  {| obj := atom_solved; stdout := [] |}.

(** The one-orbital system with another coupling tensor, [converged]
    already [True], a Fock matrix stored and a line printed. *)
Definition atom_other : @scf qnumpy :=
  @Build_scf qnumpy (mat1 (-1)) (mat1 (1 # 2)) (mat1 0)
    (Build_ten rationals 1 1 1 [[[5%Q]]]) 1%Q 2 true 1
    (Some (mat1 7)) None None.

Definition atom_other_world : @world qnumpy :=
  {| obj := atom_other; stdout := [warning] |}.

End MoreExamples.

(** * Properties *)

(** ** Running the monad *)

Section MonadFacts.

Context {np : NumPy}.

Lemma bind_ok {A B : Type} (m : M A) (k : A -> M B) (w w' : world) (a : A) :
  m w = (Ok a, w') -> bind m k w = k a w'.
Proof. intros E. unfold bind. now rewrite E. Qed.

Lemma bind_lift {A B : Type} (r : result A) (k : A -> M B) (w : world) :
  bind (lift r) k w =
  match r with Ok a => k a w | Raise e => (Raise e, w) end.
Proof. unfold bind, lift. now destruct r. Qed.

Lemma bind_get_self {B : Type} (k : scf -> M B) (w : world) :
  bind get_self k w = k (obj w) w.
Proof. reflexivity. Qed.

Lemma bind_modify_self {B : Type} (f : scf -> scf) (k : unit -> M B) (w : world) :
  bind (modify_self f) k w = k tt {| obj := f (obj w); stdout := stdout w |}.
Proof. reflexivity. Qed.

Lemma bind_print {B : Type} (line : string) (k : unit -> M B) (w : world) :
  bind (print line) k w =
  k tt {| obj := obj w; stdout := stdout w ++ [line] |}.
Proof. reflexivity. Qed.

End MonadFacts.

Create Rewrite HintDb run.
#[global] Hint Rewrite @bind_lift @bind_get_self @bind_modify_self @bind_print
  : run.

(** ** The occupied-orbital count and the reference path *)

Section PureFacts.

Context {np : NumPy} {ff : FockFast np}.

Lemma floordiv_nonzero (a b : Z) : b <> 0 -> floordiv a b = Ok (a / b).
Proof.
  intros Hb. unfold floordiv.
  destruct (Z.eqb_spec b 0) as [E | _]; [contradiction | reflexivity].
Qed.

Lemma floordiv_zero (a : Z) : floordiv a 0 = Raise ZeroDivisionError.
Proof. reflexivity. Qed.

(** C3.  The occupied-orbital count of [calculate_density_matrix] is
    [((Q // 2) * n) // K], floor divisions taken from the left (a zero [K]
    raises [ZeroDivisionError], as the expression itself does), and it is
    the count the column slice is cut at.  For [Q = 4], [K = 2], [n = 4] it
    is 4; for [Q = 3], [K = 2], [n = 4] it is 2, where the reordering
    [(Q // (2 * K)) * n] gives 0. *)
Theorem num_occ_floor_division_order (s : scf) (F : matrix) :
  let Q := ionic_charge s in
  let n := size0 F in
  let K := orbitals_per_atom s in
  (K <> 0 -> num_occ s F = Ok (((Q / 2) * n) / K))
  /\ (K = 0 -> num_occ s F = Raise ZeroDivisionError)
  /\ calculate_density_matrix s F =
       (let* k := floordiv ((Q / 2) * n) K in
        let* eig := linalg_eigh F in
        let C := take_cols (snd eig) k in
        matmul C (transpose C))
  /\ (Q = 4 -> K = 2 -> n = 4 -> num_occ s F = Ok 4)
  /\ (Q = 3 -> K = 2 -> n = 4 ->
      num_occ s F = Ok 2 /\ num_occ s F <> Ok (num_occ_reordered Q n K)).
Proof.
  intros Q n K.
  assert (E : K <> 0 -> num_occ s F = Ok (((Q / 2) * n) / K)).
  { intros HK. unfold num_occ. now apply floordiv_nonzero. }
  split; [exact E |].
  split.
  { intros HK. unfold num_occ. fold K. rewrite HK. apply floordiv_zero. }
  split; [reflexivity |].
  split.
  - intros HQ HK2 Hn. rewrite E by (rewrite HK2; discriminate).
    rewrite HQ, HK2, Hn. reflexivity.
  - intros HQ HK2 Hn. rewrite E by (rewrite HK2; discriminate).
    rewrite HQ, HK2, Hn. split; [reflexivity |].
    unfold num_occ_reordered. vm_compute. discriminate.
Qed.

(** C8.  [calculate_fock_matrix] never reads its four parameters: any two
    calls on one instance return the same thing, which is the reference
    formula [H + 2 * Coulomb - Exchange] on the attributes of the
    instance. *)
Theorem calculate_fock_matrix_reads_only_self (s : scf)
    (H1 M1 D1 H2 M2 D2 : matrix) (chi1 chi2 : tensor) :
  calculate_fock_matrix s H1 M1 D1 chi1 = calculate_fock_matrix s H2 M2 D2 chi2
  /\ calculate_fock_matrix s H1 M1 D1 chi1 =
     reference_fock (hamiltonian_matrix s) (interaction_matrix s)
                    (density_matrix s) (chi_tensor s).
Proof.
  split.
  - reflexivity.
  - unfold calculate_fock_matrix, reference_fock, coulomb, exchange, copy.
    destruct (einsum4 "pqt,rsu,tu,rs" _ _ _ _) as [J | e]; reflexivity.
Qed.

(** If the two paths agreed on every argument tuple, the accelerated path
    would not depend on its arguments either. *)
Lemma agreement_makes_fast_path_constant (s : scf) (chi : tensor) :
  (forall H M D, calculate_fock_matrix s H M D chi = fast_fock_matrix s H M D) ->
  forall H M D H' M' D',
    fast_fock_matrix s H M D = fast_fock_matrix s H' M' D'.
Proof.
  intros Hagree H M D H' M' D'.
  rewrite <- (Hagree H M D), <- (Hagree H' M' D'). reflexivity.
Qed.

End PureFacts.

(** ** The convergence loop *)

Section CycleFacts.

Context {np : NumPy} {ff : FockFast np}.

Variables mixing_fraction convergence_tolerance : float.

Local Abbreviation body := (scf_body mixing_fraction convergence_tolerance).
Local Abbreviation loop := (scf_loop mixing_fraction convergence_tolerance).

(** *** One pass through the body *)

Lemma scf_body_converged (fr : frame) (w : world) (F D : matrix) :
  stored_fock (obj w) = Ok F ->
  calculate_density_matrix (obj w) F = Ok D ->
  below convergence_tolerance (old_density_matrix fr) D = Ok true ->
  body fr w = (Ok (Return (D, F)), mark_converged w).
Proof.
  unfold stored_fock, below. intros HF HD Hb.
  unfold scf_body. autorewrite with run. rewrite HF.
  autorewrite with run. rewrite HD. autorewrite with run.
  destruct (arr_sub (old_density_matrix fr) D) as [diff | e];
    simpl in Hb; [| discriminate].
  injection Hb as Hb. rewrite Hb. reflexivity.
Qed.

Lemma scf_body_continue (fr : frame) (w : world) (F D old' : matrix) :
  stored_fock (obj w) = Ok F ->
  calculate_density_matrix (obj w) F = Ok D ->
  below convergence_tolerance (old_density_matrix fr) D = Ok false ->
  mix mixing_fraction D (old_density_matrix fr) = Ok old' ->
  body fr w =
  (Ok (Next {| old_density_matrix := old';
               local_density_matrix := Some D;
               local_fock_matrix := Some F |}), w).
Proof.
  unfold stored_fock, below, mix. intros HF HD Hb Hm.
  unfold scf_body. autorewrite with run. rewrite HF.
  autorewrite with run. rewrite HD. autorewrite with run.
  destruct (arr_sub (old_density_matrix fr) D) as [diff | e];
    simpl in Hb; [| discriminate].
  injection Hb as Hb. rewrite Hb.
  autorewrite with run. rewrite Hm. reflexivity.
Qed.

(** What a pass can do to the world, whatever its outcome: nothing, or set
    [converged] on the way out through the [return]. *)
Lemma scf_body_effect (fr : frame) (w : world) :
  let r := fst (body fr w) in
  let w' := snd (body fr w) in
  (w' = w /\ forall v, r <> Ok (Return v))
  \/ (w' = mark_converged w
      /\ exists F D diff,
           r = Ok (Return (D, F))
           /\ stored_fock (obj w) = Ok F
           /\ calculate_density_matrix (obj w) F = Ok D
           /\ arr_sub (old_density_matrix fr) D = Ok diff
           /\ float_lt (linalg_norm diff) convergence_tolerance = true).
Proof.
  unfold scf_body. autorewrite with run.
  destruct (fast_fock_matrix _ _ _ _) as [F | e] eqn:HF;
    [| left; split; [reflexivity | discriminate]].
  autorewrite with run.
  destruct (calculate_density_matrix (obj w) F) as [D | e] eqn:HD;
    [| left; split; [reflexivity | discriminate]].
  autorewrite with run.
  destruct (arr_sub (old_density_matrix fr) D) as [diff | e] eqn:Hs;
    [| left; split; [reflexivity | discriminate]].
  destruct (float_lt (linalg_norm diff) convergence_tolerance) eqn:Hlt.
  - right. split; [reflexivity |].
    exists F, D, diff. repeat split; assumption.
  - left. autorewrite with run.
    destruct (arr_add _ _) as [mixed | e];
      split; try reflexivity; discriminate.
Qed.

(** The frame a pass hands on holds the Fock matrix of the stored density
    and the density built from it: nothing of the incoming frame but the
    comparison baseline is read. *)
Lemma scf_body_next (fr fr' : frame) (w w' : world) :
  body fr w = (Ok (Next fr'), w') ->
  w' = w
  /\ exists F D,
       stored_fock (obj w) = Ok F
       /\ calculate_density_matrix (obj w) F = Ok D
       /\ local_fock_matrix fr' = Some F
       /\ local_density_matrix fr' = Some D
       /\ mix mixing_fraction D (old_density_matrix fr)
          = Ok (old_density_matrix fr').
Proof.
  unfold scf_body, stored_fock, mix. autorewrite with run.
  destruct (fast_fock_matrix _ _ _ _) as [F | e] eqn:HF; [| discriminate].
  autorewrite with run.
  destruct (calculate_density_matrix (obj w) F) as [D | e] eqn:HD;
    [| discriminate].
  autorewrite with run.
  destruct (arr_sub (old_density_matrix fr) D) as [diff | e];
    [| discriminate].
  destruct (float_lt (linalg_norm diff) convergence_tolerance);
    [discriminate |].
  autorewrite with run.
  destruct (arr_add _ _) as [mixed | e] eqn:Hm; [| discriminate].
  intros E. injection E as Efr Ew. subst fr' w'.
  split; [reflexivity |]. exists F, D. simpl. auto.
Qed.

(** *** The baseline *)

Lemma rbind_ret {A : Type} (r : result A) : rbind r Ok = r.
Proof. now destruct r. Qed.

Lemma baseline_shift (D0 D : matrix) (k : nat) :
  baseline mixing_fraction D0 D (S k) =
  (let* d1 := mix mixing_fraction D D0 in baseline mixing_fraction d1 D k).
Proof.
  induction k as [| k IH].
  - simpl. now rewrite rbind_ret.
  - change (baseline mixing_fraction D0 D (S (S k)))
      with (let* old := baseline mixing_fraction D0 D (S k) in
            mix mixing_fraction D old).
    rewrite IH.
    destruct (mix mixing_fraction D D0) as [d1 | e]; reflexivity.
Qed.

Lemma no_convergence_shift (D0 D d1 : matrix) (k : nat) :
  mix mixing_fraction D D0 = Ok d1 ->
  no_convergence_before mixing_fraction convergence_tolerance D0 D (S k) ->
  no_convergence_before mixing_fraction convergence_tolerance d1 D k.
Proof.
  intros Hm Hno j Hj.
  destruct (Hno (S j)) as [old [Hb Hlt]]; [lia |].
  rewrite baseline_shift, Hm in Hb. simpl in Hb.
  exists old. split; assumption.
Qed.

(** *** Several passes *)

(** [k + 1] passes without convergence leave the frame holding the [k+1]-th
    baseline, the density and the Fock matrix, and the world as it was. *)
Lemma scf_loop_skip (k n : nat) (fr : frame) (w : world)
    (F D old_k : matrix) :
  stored_fock (obj w) = Ok F ->
  calculate_density_matrix (obj w) F = Ok D ->
  no_convergence_before mixing_fraction convergence_tolerance
    (old_density_matrix fr) D (S k) ->
  baseline mixing_fraction (old_density_matrix fr) D (S k) = Ok old_k ->
  loop (S k + n) fr w =
  loop n {| old_density_matrix := old_k;
            local_density_matrix := Some D;
            local_fock_matrix := Some F |} w.
Proof.
  intros HF HD. revert fr old_k.
  induction k as [| k IH]; intros fr old_k Hno Hb.
  - destruct (Hno 0%nat) as [old0 [H0 Hlt]]; [lia |].
    simpl in H0. injection H0 as <-.
    simpl in Hb.
    change (loop (1 + n) fr w) with
      (bind (body fr) (fun c => match c with
                                | Next fr' => loop n fr'
                                | Return value => ret (Return value)
                                end) w).
    rewrite (bind_ok _ _ _ _ _ (scf_body_continue fr w F D old_k HF HD Hlt Hb)).
    reflexivity.
  - destruct (Hno 0%nat) as [old0 [H0 Hlt]]; [lia |].
    simpl in H0. injection H0 as <-.
    rewrite baseline_shift in Hb.
    destruct (mix mixing_fraction D (old_density_matrix fr)) as [d1 | e] eqn:Hm;
      [| discriminate].
    change (loop (S (S k) + n) fr w) with
      (bind (body fr) (fun c => match c with
                                | Next fr' => loop (S k + n) fr'
                                | Return value => ret (Return value)
                                end) w).
    rewrite (bind_ok _ _ _ _ _ (scf_body_continue fr w F D d1 HF HD Hlt Hm)).
    apply IH.
    + simpl. eapply no_convergence_shift; eassumption.
    + exact Hb.
Qed.

Lemma scf_loop_return_now (n : nat) (fr : frame) (w : world) (F D : matrix) :
  stored_fock (obj w) = Ok F ->
  calculate_density_matrix (obj w) F = Ok D ->
  below convergence_tolerance (old_density_matrix fr) D = Ok true ->
  loop (S n) fr w = (Ok (Return (D, F)), mark_converged w).
Proof.
  intros HF HD Hb.
  change (loop (S n) fr w) with
    (bind (body fr) (fun c => match c with
                              | Next fr' => loop n fr'
                              | Return value => ret (Return value)
                              end) w).
  rewrite (bind_ok _ _ _ _ _ (scf_body_converged fr w F D HF HD Hb)).
  reflexivity.
Qed.

(** Whatever the loop does, it leaves the world alone unless it leaves
    through the [return], and then only [converged] is set. *)
Lemma scf_loop_effect (n : nat) (fr : frame) (w : world) :
  let r := fst (loop n fr w) in
  let w' := snd (loop n fr w) in
  (w' = w /\ forall v, r <> Ok (Return v))
  \/ (w' = mark_converged w
      /\ exists F D old diff,
           r = Ok (Return (D, F))
           /\ stored_fock (obj w) = Ok F
           /\ calculate_density_matrix (obj w) F = Ok D
           /\ arr_sub old D = Ok diff
           /\ float_lt (linalg_norm diff) convergence_tolerance = true).
Proof.
  revert fr. induction n as [| n IH]; intros fr.
  - left. split; [reflexivity | discriminate].
  - change (loop (S n) fr w) with
      (bind (body fr) (fun c => match c with
                                | Next fr' => loop n fr'
                                | Return value => ret (Return value)
                                end) w).
    pose proof (scf_body_effect fr w) as Hb.
    unfold bind.
    destruct (body fr w) as [[c | e] w1] eqn:E; simpl in Hb.
    + destruct Hb as [[-> Hnr] | [-> [F [D [diff [Hr Hrest]]]]]].
      * destruct c as [fr' | v]; [apply IH | now elim (Hnr v)].
      * injection Hr as ->. right. split; [reflexivity |].
        exists F, D, (old_density_matrix fr), diff. split; [reflexivity | exact Hrest].
    + destruct Hb as [[-> _] | [_ [F [D [diff [Hr _]]]]]]; [| discriminate].
      left. split; [reflexivity | discriminate].
Qed.

(** Every frame the loop hands on after at least one pass holds the Fock
    matrix of the density stored in the instance when the loop began. *)
Lemma scf_loop_fock_of_stored_density (n : nat) (fr fr' : frame) (w w' : world) :
  loop (S n) fr w = (Ok (Next fr'), w') ->
  w' = w
  /\ exists F D,
       stored_fock (obj w) = Ok F
       /\ calculate_density_matrix (obj w) F = Ok D
       /\ local_fock_matrix fr' = Some F
       /\ local_density_matrix fr' = Some D.
Proof.
  revert fr. induction n as [| n IH]; intros fr.
  - change (loop 1 fr w) with
      (bind (body fr) (fun c => match c with
                                | Next fr' => ret (Next fr')
                                | Return value => ret (Return value)
                                end) w).
    unfold bind. destruct (body fr w) as [[c | e] w1] eqn:E; [| discriminate].
    destruct c as [fr1 | v]; [| discriminate].
    intros H. injection H as -> ->.
    destruct (scf_body_next _ _ _ _ E) as [-> [F [D [HF [HD [Hf [Hd _]]]]]]].
    split; [reflexivity |]. exists F, D. auto.
  - change (loop (S (S n)) fr w) with
      (bind (body fr) (fun c => match c with
                                | Next fr' => loop (S n) fr'
                                | Return value => ret (Return value)
                                end) w).
    unfold bind. destruct (body fr w) as [[c | e] w1] eqn:E; [| discriminate].
    destruct c as [fr1 | v]; [| discriminate].
    destruct (scf_body_next _ _ _ _ E) as [-> _].
    apply IH.
Qed.

End CycleFacts.

(** ** [scf_cycle] *)

Section CycleTheorems.

Context {np : NumPy} {ff : FockFast np}.

Lemma scf_cycle_unfold (max_scf_iterations : Z)
    (mixing_fraction convergence_tolerance : float) (w : world) :
  scf_cycle max_scf_iterations mixing_fraction convergence_tolerance w =
  match scf_loop mixing_fraction convergence_tolerance
          (Z.to_nat max_scf_iterations)
          {| old_density_matrix := copy (density_matrix (obj w));
             local_density_matrix := None;
             local_fock_matrix := None |} w with
  | (Ok (Return value), w') => (Ok value, w')
  | (Ok (Next fr), w') =>
      let w'' := {| obj := obj w'; stdout := stdout w' ++ [warning] |} in
      match local_density_matrix fr, local_fock_matrix fr with
      | Some D, Some F => (Ok (D, F), w'')
      | Some _, None => (Raise (UnboundLocalError "fock_matrix"), w'')
      | None, _ => (Raise (UnboundLocalError "density_matrix"), w'')
      end
  | (Raise e, w') => (Raise e, w')
  end.
Proof.
  unfold scf_cycle. rewrite bind_get_self. unfold bind at 1.
  destruct (scf_loop _ _ _ _ w) as [[[fr | v] | e] w']; try reflexivity.
  rewrite bind_print, !bind_lift. unfold warning.
  destruct (local_density_matrix fr), (local_fock_matrix fr); reflexivity.
Qed.

(** C4.  Let [F] and [D] be the Fock matrix and the density a pass builds.
    If the comparison against the baseline first falls below the tolerance
    at pass [k] (counted from 0) and [k] is within the iteration cap, then
    [scf_cycle] sets [converged], prints nothing and returns [(D, F)]: the
    density as built, not mixed.  The converged pass itself returns from
    the loop body before the mixing update is evaluated. *)
Theorem scf_cycle_returns_at_first_convergence
    (max_scf_iterations : Z) (mixing_fraction convergence_tolerance : float)
    (w : world) (F D old_k : matrix) (k : nat) :
  stored_fock (obj w) = Ok F ->
  calculate_density_matrix (obj w) F = Ok D ->
  (k < Z.to_nat max_scf_iterations)%nat ->
  no_convergence_before mixing_fraction convergence_tolerance
    (copy (density_matrix (obj w))) D k ->
  baseline mixing_fraction (copy (density_matrix (obj w))) D k = Ok old_k ->
  below convergence_tolerance old_k D = Ok true ->
  scf_cycle max_scf_iterations mixing_fraction convergence_tolerance w
    = (Ok (D, F),
       {| obj := set_converged true (obj w); stdout := stdout w |})
  /\ converged (set_converged true (obj w)) = true
  /\ forall fr, old_density_matrix fr = old_k ->
       scf_body mixing_fraction convergence_tolerance fr w
       = (Ok (Return (D, F)),
          {| obj := set_converged true (obj w); stdout := stdout w |}).
Proof.
  intros HF HD Hk Hno Hb Hlt.
  split; [| split; [reflexivity |]].
  - rewrite scf_cycle_unfold.
    destruct (Z.to_nat max_scf_iterations) as [| n]; [lia |].
    destruct k as [| k].
    + simpl in Hb. injection Hb as <-.
      erewrite scf_loop_return_now;
        [reflexivity | exact HF | exact HD | exact Hlt].
    + replace (S n) with (S k + S (n - S k))%nat by lia.
      erewrite scf_loop_skip; [| exact HF | exact HD | exact Hno | exact Hb].
      erewrite scf_loop_return_now;
        [reflexivity | exact HF | exact HD | exact Hlt].
  - intros fr Hfr. apply scf_body_converged; try assumption.
    now rewrite Hfr.
Qed.

(** C5.  With at least one iteration allowed, if none of the
    [max_scf_iterations] comparisons falls below the tolerance, [scf_cycle]
    prints the warning and returns the pair [(D, F)] of the last pass; the
    instance is as it was, so [converged] keeps its value, [False] when it
    was [False]. *)
Theorem scf_cycle_without_convergence
    (max_scf_iterations : Z) (mixing_fraction convergence_tolerance : float)
    (w : world) (F D old_n : matrix) :
  0 < max_scf_iterations ->
  stored_fock (obj w) = Ok F ->
  calculate_density_matrix (obj w) F = Ok D ->
  no_convergence_before mixing_fraction convergence_tolerance
    (copy (density_matrix (obj w))) D (Z.to_nat max_scf_iterations) ->
  baseline mixing_fraction (copy (density_matrix (obj w))) D
    (Z.to_nat max_scf_iterations) = Ok old_n ->
  let out := scf_cycle max_scf_iterations mixing_fraction
               convergence_tolerance w in
  fst out = Ok (D, F)
  /\ obj (snd out) = obj w
  /\ stdout (snd out) = (stdout w ++ [warning])%list
  /\ (converged (obj w) = false -> converged (obj (snd out)) = false).
Proof.
  intros Hmax HF HD Hno Hb out. subst out.
  rewrite scf_cycle_unfold.
  destruct (Z.to_nat max_scf_iterations) as [| n] eqn:En; [lia |].
  replace (S n) with (S n + 0)%nat by lia.
  erewrite scf_loop_skip; [| exact HF | exact HD | exact Hno | exact Hb].
  simpl. auto.
Qed.

(** C9.  With [max_scf_iterations <= 0] the loop body never runs: the
    warning is printed and the [return] raises [UnboundLocalError] on
    [density_matrix].  So a pair comes back only when
    [max_scf_iterations >= 1]. *)
Theorem scf_cycle_needs_an_iteration :
  (forall (max_scf_iterations : Z)
          (mixing_fraction convergence_tolerance : float) (w : world),
      max_scf_iterations <= 0 ->
      scf_cycle max_scf_iterations mixing_fraction convergence_tolerance w
      = (Raise (UnboundLocalError "density_matrix"),
         {| obj := obj w; stdout := stdout w ++ [warning] |}))
  /\ (forall (max_scf_iterations : Z)
             (mixing_fraction convergence_tolerance : float)
             (w w' : world) (value : matrix * matrix),
         scf_cycle max_scf_iterations mixing_fraction convergence_tolerance w
         = (Ok value, w') ->
         1 <= max_scf_iterations).
Proof.
  assert (Hzero : forall max mixf tol w, max <= 0 ->
            scf_cycle max mixf tol w
            = (Raise (UnboundLocalError "density_matrix"),
               {| obj := obj w; stdout := stdout w ++ [warning] |})).
  { intros max mixf tol w Hmax. rewrite scf_cycle_unfold.
    replace (Z.to_nat max) with 0%nat by lia. reflexivity. }
  split; [exact Hzero |].
  intros max mixf tol w w' value Hrun.
  destruct (Z_le_gt_dec max 0) as [Hle | Hgt]; [| lia].
  rewrite (Hzero max mixf tol w Hle) in Hrun. discriminate.
Qed.

(** What [scf_cycle] can do to the instance: nothing, or set [converged]
    when it returns through the convergence test. *)
Lemma scf_cycle_effect
    (max_scf_iterations : Z) (mixing_fraction convergence_tolerance : float)
    (w : world) :
  let out := scf_cycle max_scf_iterations mixing_fraction
               convergence_tolerance w in
  obj (snd out) = obj w
  \/ (obj (snd out) = set_converged true (obj w)
      /\ exists F D old diff,
           fst out = Ok (D, F)
           /\ arr_sub old D = Ok diff
           /\ float_lt (linalg_norm diff) convergence_tolerance = true).
Proof.
  intros out. subst out. rewrite scf_cycle_unfold.
  pose proof (scf_loop_effect mixing_fraction convergence_tolerance
                (Z.to_nat max_scf_iterations)
                {| old_density_matrix := copy (density_matrix (obj w));
                   local_density_matrix := None;
                   local_fock_matrix := None |} w) as He.
  destruct (scf_loop _ _ _ _ w) as [[[fr | v] | e] w'];
    simpl in He.
  - destruct He as [[-> _] | [_ [F [D [old [diff [Hr _]]]]]]];
      [| discriminate].
    left. destruct (local_density_matrix fr), (local_fock_matrix fr);
      reflexivity.
  - destruct He as [[_ Hnr] | [-> [F [D [old [diff [Hr [_ [_ [Hs Hlt]]]]]]]]]].
    + now elim (Hnr v).
    + injection Hr as ->. right. split; [reflexivity |].
      exists F, D, old, diff. auto.
  - destruct He as [[-> _] | [_ [F [D [old [diff [Hr _]]]]]]];
      [| discriminate].
    left. reflexivity.
Qed.

(** C10.  Whatever [scf_cycle] returns or raises, the instance afterwards
    has every attribute it had before, [density_matrix] and [fock_matrix]
    included; [converged] alone may differ, and then it went from [False]
    to [True], the call returned a pair [(D, F)], and the residual of [D]
    against some baseline was below the tolerance. *)
Theorem scf_cycle_writes_only_converged
    (max_scf_iterations : Z) (mixing_fraction convergence_tolerance : float)
    (w : world) :
  let out := scf_cycle max_scf_iterations mixing_fraction
               convergence_tolerance w in
  let s := obj w in
  let s' := obj (snd out) in
  hamiltonian_matrix s' = hamiltonian_matrix s
  /\ interaction_matrix s' = interaction_matrix s
  /\ chi_tensor s' = chi_tensor s
  /\ energy_ion s' = energy_ion s
  /\ ionic_charge s' = ionic_charge s
  /\ orbitals_per_atom s' = orbitals_per_atom s
  /\ density_matrix s' = density_matrix s
  /\ fock_matrix s' = fock_matrix s
  /\ energy_scf s' = energy_scf s
  /\ total_energy s' = total_energy s
  /\ (converged s' = converged s
      \/ (converged s = false /\ converged s' = true
          /\ exists F D old diff,
               fst out = Ok (D, F)
               /\ arr_sub old D = Ok diff
               /\ float_lt (linalg_norm diff) convergence_tolerance = true)).
Proof.
  intros out s s'.
  destruct (scf_cycle_effect max_scf_iterations mixing_fraction
              convergence_tolerance w) as [Hobj | [Hobj Hex]];
    fold out in Hobj; fold s s' in Hobj; rewrite Hobj.
  - repeat split; try reflexivity. left. reflexivity.
  - repeat split; try reflexivity.
    destruct (converged s) eqn:Ec.
    + left. reflexivity.
    + right. repeat split; try reflexivity. exact Hex.
Qed.

(** ** [initialize] and [kernel] *)

Lemma initialize_run (w : world) (F0 D0 : matrix) :
  stored_fock (obj w) = Ok F0 ->
  calculate_density_matrix (set_fock_matrix F0 (obj w)) F0 = Ok D0 ->
  initialize w =
  (Ok tt, {| obj := set_density_matrix D0 (set_fock_matrix F0 (obj w));
             stdout := stdout w |}).
Proof.
  unfold stored_fock. intros HF HD.
  unfold initialize. autorewrite with run. rewrite HF.
  autorewrite with run. simpl. rewrite HD. reflexivity.
Qed.

(** [initialize] leaves the system parameters alone. *)
Lemma initialize_effect (w w' : world) (r : result unit) :
  initialize w = (r, w') ->
  hamiltonian_matrix (obj w') = hamiltonian_matrix (obj w)
  /\ energy_ion (obj w') = energy_ion (obj w).
Proof.
  unfold initialize. autorewrite with run.
  destruct (fast_fock_matrix _ _ _ _) as [F0 | e].
  - autorewrite with run. simpl.
    destruct (calculate_density_matrix _ F0) as [D0 | e];
      intros E; injection E as _ <-; split; reflexivity.
  - intros E; injection E as _ <-; split; reflexivity.
Qed.

(** [kernel] step by step: [initialize], [scf_cycle] with the default
    arguments, the returned pair stored in the instance, the energy of the
    stored matrices, the total energy stored and returned. *)
Lemma kernel_run (w w1 w2 : world) (D F : matrix) (e : float) :
  initialize w = (Ok tt, w1) ->
  scf_cycle default_max_scf_iterations default_mixing_fraction
    default_convergence_tolerance w1 = (Ok (D, F), w2) ->
  calculate_energy_scf (obj w2) (hamiltonian_matrix (obj w)) F D = Ok e ->
  kernel w =
  (Ok (float_add (energy_ion (obj w)) e),
   {| obj := set_total_energy (float_add (energy_ion (obj w)) e)
               (set_energy_scf e
                 (set_fock_matrix F (set_density_matrix D (obj w2))));
      stdout := stdout w2 |}).
Proof.
  intros Hi Hc He.
  destruct (initialize_effect _ _ _ Hi) as [HH1 HE1].
  pose proof (scf_cycle_effect default_max_scf_iterations
                default_mixing_fraction default_convergence_tolerance w1)
    as Hobj.
  rewrite Hc in Hobj. simpl in Hobj.
  assert (HH2 : hamiltonian_matrix (obj w2) = hamiltonian_matrix (obj w)).
  { destruct Hobj as [-> | [-> _]]; exact HH1. }
  assert (HE2 : energy_ion (obj w2) = energy_ion (obj w)).
  { destruct Hobj as [-> | [-> _]]; exact HE1. }
  unfold kernel.
  rewrite (bind_ok _ _ _ _ _ Hi), (bind_ok _ _ _ _ _ Hc).
  autorewrite with run. simpl.
  unfold calculate_energy_scf in He |- *. rewrite HH2, He.
  autorewrite with run. simpl. rewrite HE2. reflexivity.
Qed.

End CycleTheorems.

(** ** The reference arrays *)

Section ArrayFacts.

Import ListModel.

Variable S : scalar.
Local Abbreviation R := (carrier S).

Lemma nth_tabulate {A : Type} (n : nat) (f : nat -> A) (i : nat) (d : A) :
  (i < n)%nat -> nth i (tabulate n f) d = f i.
Proof.
  intros Hi. unfold tabulate.
  rewrite (nth_indep _ d (f 0%nat)) by (rewrite length_map, length_seq; exact Hi).
  rewrite map_nth, seq_nth by exact Hi. reflexivity.
Qed.

Lemma tabulate_ext {A : Type} (n : nat) (f g : nat -> A) :
  (forall i, (i < n)%nat -> f i = g i) -> tabulate n f = tabulate n g.
Proof.
  intros H. unfold tabulate. apply map_ext_in.
  intros i Hi. apply in_seq in Hi. apply H. lia.
Qed.

Lemma get_mk (n m : nat) (f : nat -> nat -> R) (i j : nat) :
  (i < n)%nat -> (j < m)%nat -> get S (mk S n m f) i j = f i j.
Proof.
  intros Hi Hj. unfold get, mk. simpl.
  rewrite nth_tabulate by exact Hi. now rewrite nth_tabulate by exact Hj.
Qed.

Lemma mk_ext (n m : nat) (f g : nat -> nat -> R) :
  (forall i j, (i < n)%nat -> (j < m)%nat -> f i j = g i j) ->
  mk S n m f = mk S n m g.
Proof.
  intros H. unfold mk. f_equal.
  apply tabulate_ext. intros i Hi.
  apply tabulate_ext. intros j Hj. now apply H.
Qed.

Lemma sum_n_ext (n : nat) (f g : nat -> R) :
  (forall i, (i < n)%nat -> f i = g i) -> sum_n S n f = sum_n S n g.
Proof.
  induction n as [| n IH]; intros H; [reflexivity |].
  simpl. rewrite IH by (intros i Hi; apply H; lia).
  now rewrite (H n) by lia.
Qed.

Lemma slice_stop_in_range (len : nat) (k : Z) :
  0 <= k <= Z.of_nat len -> slice_stop len k = Z.to_nat k.
Proof.
  intros [H0 Hk]. unfold slice_stop.
  destruct (Z.ltb_spec k 0) as [Hneg | _]; [lia |].
  apply Nat.min_l. lia.
Qed.

(** *** Sums in a commutative monoid *)

Section ExactSums.

Hypothesis add_comm : forall a b : R, sadd S a b = sadd S b a.
Hypothesis add_assoc :
  forall a b c : R, sadd S a (sadd S b c) = sadd S (sadd S a b) c.
Hypothesis add_0_l : forall a : R, sadd S (s0 S) a = a.

Lemma sum_n_zero (n : nat) : sum_n S n (fun _ => s0 S) = s0 S.
Proof.
  induction n as [| n IH]; [reflexivity |].
  simpl. rewrite IH. apply add_0_l.
Qed.

Lemma sum_n_add (n : nat) (f g : nat -> R) :
  sum_n S n (fun i => sadd S (f i) (g i))
  = sadd S (sum_n S n f) (sum_n S n g).
Proof.
  induction n as [| n IH]; simpl.
  - symmetry. apply add_0_l.
  - rewrite IH.
    rewrite <- (add_assoc (sum_n S n f) (sum_n S n g) (sadd S (f n) (g n))).
    rewrite (add_assoc (sum_n S n g) (f n) (g n)).
    rewrite (add_comm (sum_n S n g) (f n)).
    rewrite <- (add_assoc (f n) (sum_n S n g) (g n)).
    rewrite (add_assoc (sum_n S n f) (f n) _).
    reflexivity.
Qed.

Lemma sum_n_swap (n m : nat) (f : nat -> nat -> R) :
  sum_n S n (fun i => sum_n S m (fun k => f i k))
  = sum_n S m (fun k => sum_n S n (fun i => f i k)).
Proof.
  induction n as [| n IH]; simpl.
  - symmetry. apply sum_n_zero.
  - rewrite IH. symmetry. apply sum_n_add.
Qed.

End ExactSums.

End ArrayFacts.

(** ** [calculate_density_matrix] on the reference arrays *)

Section DensityFacts.

Import ListModel.

Variable S : scalar.
Local Abbreviation R := (carrier S).
Variable eigh : mat S -> result (list R * mat S).

(** The product [v[:, :k] @ v[:, :k].T] entry by entry, for a square [v]
    and a slice that fits. *)
Lemma occupied_product (v : mat S) (n : nat) (m : Z) :
  nrows v = n -> ncols v = n -> 0 <= m <= Z.of_nat n ->
  mmatmul S (mtake_cols S v m) (mtranspose S (mtake_cols S v m))
  = Ok (mk S n n (fun i j =>
          sum_n S (Z.to_nat m) (fun k => smul S (get S v i k) (get S v j k)))).
Proof.
  intros Hr Hc Hm.
  unfold mmatmul, mtake_cols, mtranspose. simpl.
  rewrite Hr, Hc, (slice_stop_in_range n m Hm), Nat.eqb_refl.
  f_equal. apply mk_ext. intros i j Hi Hj.
  apply sum_n_ext. intros k Hk.
  rewrite !get_mk by assumption. reflexivity.
Qed.

(** C6.  Over exact scalars (addition a commutative monoid, multiplication
    commutative), for a symmetric [F] on which [eigh] keeps its contract,
    and an occupied count [num_occ] between 0 and the size [n] of [F]:
    [calculate_density_matrix] returns [D = C @ C.T], where [C] is made of
    the first [num_occ] columns of the eigenvector array, which are
    eigenvectors of [F] for the [num_occ] lowest eigenvalues; [D] equals
    its transpose and its trace is [num_occ]. *)
Theorem density_matrix_symmetric_with_trace_num_occ
    (s : @scf (numpy S eigh)) (F : mat S) (w : list R) (V : mat S) :
  (forall a b : R, sadd S a b = sadd S b a) ->
  (forall a b c : R, sadd S a (sadd S b c) = sadd S (sadd S a b) c) ->
  (forall a : R, sadd S (s0 S) a = a) ->
  (forall a b : R, smul S a b = smul S b a) ->
  eigh F = Ok (w, V) ->
  eigh_contract S F w V ->
  orbitals_per_atom s <> 0 ->
  let n := nrows F in
  let occ := ((ionic_charge s / 2) * Z.of_nat n) / orbitals_per_atom s in
  0 <= occ <= Z.of_nat n ->
  let C := mtake_cols S V occ in
  exists D : mat S,
    @calculate_density_matrix (numpy S eigh) s F = Ok D
    /\ mmatmul S C (mtranspose S C) = Ok D
    /\ nrows C = n /\ ncols C = Z.to_nat occ
    /\ (forall i k, (i < n)%nat -> (k < Z.to_nat occ)%nat ->
          get S C i k = get S V i k)
    /\ (forall i k, (i < n)%nat -> (k < Z.to_nat occ)%nat ->
          sum_n S n (fun j => smul S (get S F i j) (get S C j k))
          = smul S (nth k w (s0 S)) (get S C i k))
    /\ (forall k l, (k < Z.to_nat occ)%nat ->
          (Z.to_nat occ <= l)%nat -> (l < n)%nat ->
          slt S (nth l w (s0 S)) (nth k w (s0 S)) = false)
    /\ mtranspose S D = D
    /\ trace S D = of_nat S (Z.to_nat occ).
Proof.
  intros add_comm add_assoc add_0_l mul_comm He Hc HK n occ Hrange C.
  destruct Hc as [_ Hrows Hcols _ Hunit Hvec Hasc].
  fold n in Hrows, Hcols, Hunit, Hvec, Hasc.
  set (mm := Z.to_nat occ).
  assert (Hmm : (mm <= n)%nat) by (subst mm; lia).
  assert (HC : forall i k, (i < n)%nat -> (k < mm)%nat ->
                 get S C i k = get S V i k).
  { intros i k Hi Hk. subst C. unfold mtake_cols.
    rewrite Hrows, Hcols, (slice_stop_in_range n occ Hrange).
    now apply get_mk. }
  pose (D := mk S n n (fun i j =>
               sum_n S mm (fun k => smul S (get S V i k) (get S V j k)))).
  assert (Hprod : mmatmul S C (mtranspose S C) = Ok D)
    by (apply occupied_product; assumption).
  exists D.
  split.
  { unfold calculate_density_matrix, num_occ. simpl.
    fold n. rewrite (floordiv_nonzero _ _ HK). simpl.
    rewrite He. simpl. exact Hprod. }
  split; [exact Hprod |].
  split.
  { subst C. unfold mtake_cols. simpl. exact Hrows. }
  split.
  { subst C. unfold mtake_cols. simpl.
    rewrite Hcols. apply slice_stop_in_range. exact Hrange. }
  split; [exact HC |].
  split.
  { intros i k Hi Hk.
    rewrite (HC i k Hi Hk), <- (Hvec i k Hi) by lia.
    apply sum_n_ext. intros j Hj. now rewrite (HC j k Hj Hk). }
  split.
  { intros k l Hk Hkl Hl. apply Hasc; lia. }
  split.
  - unfold mtranspose, D. simpl. apply mk_ext. intros i j Hi Hj.
    rewrite get_mk by assumption.
    apply sum_n_ext. intros k _. apply mul_comm.
  - unfold trace, D. simpl.
    rewrite (sum_n_ext S n _
               (fun i => sum_n S mm (fun k => smul S (get S V i k) (get S V i k)))).
    + rewrite (sum_n_swap S add_comm add_assoc add_0_l).
      unfold of_nat. apply sum_n_ext. intros k Hk. apply Hunit. lia.
    + intros i Hi. now apply get_mk.
Qed.

End DensityFacts.

(** ** [kernel] on the reference arrays *)

Section KernelFacts.

Import ListModel.

Variable S : scalar.
Local Abbreviation R := (carrier S).
Variable eigh : mat S -> result (list R * mat S).
Variable ff : FockFast (numpy S eigh).

(** ['pq,pq'] of a sum with a third array of the same shape is the double
    sum over all entries. *)
Lemma energy_double_sum (s : @scf (numpy S eigh)) (H F D : mat S) :
  same_shape S H F = true ->
  same_shape S H D = true ->
  @calculate_energy_scf (numpy S eigh) s H F D =
  Ok (sum_n S (nrows H) (fun p =>
        sum_n S (ncols H) (fun q =>
          smul S (sadd S (get S H p q) (get S F p q)) (get S D p q)))).
Proof.
  intros HF HD. unfold calculate_energy_scf. simpl.
  unfold madd, pointwise. rewrite HF. simpl.
  unfold meinsum2. simpl.
  change (same_shape S (mk S (nrows H) (ncols H)
            (fun i j => sadd S (get S H i j) (get S F i j))) D)
    with (same_shape S H D).
  rewrite HD. f_equal. unfold contract_pq_pq. simpl.
  apply sum_n_ext. intros p Hp. apply sum_n_ext. intros q Hq.
  now rewrite get_mk.
Qed.

(** C7.  When [initialize] and [scf_cycle] (default arguments) succeed and
    the returned [D] and [F] have the shape of [H], [kernel] returns
    [E_ion + sum_{p,q} (H + F)[p,q] * D[p,q]] with [D], [F] the pair
    [scf_cycle] returned, and leaves them, the electronic energy and the
    total energy stored in the instance. *)
Theorem kernel_total_energy (w w1 w2 : @world (numpy S eigh)) (D F : mat S) :
  @initialize (numpy S eigh) ff w = (Ok tt, w1) ->
  @scf_cycle (numpy S eigh) ff default_max_scf_iterations
    default_mixing_fraction default_convergence_tolerance w1
    = (Ok (D, F), w2) ->
  let H := hamiltonian_matrix (obj w) in
  same_shape S H F = true ->
  same_shape S H D = true ->
  let E := sum_n S (nrows H) (fun p =>
             sum_n S (ncols H) (fun q =>
               smul S (sadd S (get S H p q) (get S F p q)) (get S D p q))) in
  let total := sadd S (energy_ion (obj w)) E in
  exists final : @world (numpy S eigh),
    @kernel (numpy S eigh) ff w = (Ok total, final)
    /\ density_matrix (obj final) = D
    /\ fock_matrix (obj final) = Some F
    /\ energy_scf (obj final) = Some E
    /\ total_energy (obj final) = Some total
    /\ stdout final = stdout w2.
Proof.
  intros Hi Hc H HF HD E total.
  pose proof (energy_double_sum (obj w2) H F D HF HD) as He.
  fold E in He.
  eexists. split.
  - exact (kernel_run w w1 w2 D F E Hi Hc He).
  - simpl. repeat split; reflexivity.
Qed.

End KernelFacts.

(** ** Concrete runs *)

Section Runs.

Import ListModel Examples.

(** C1.  On the one-orbital system with [D0 = [[0]]] stored, the first pass
    builds [F = [[-1]]] and the density [[[1]]] and does not converge.  The
    second pass builds [F = [[-1]]] again, the Fock matrix of the stored
    [[[0]]]; the Fock matrix of the density of the first pass would be
    [[[-1/2]]]. *)
Theorem scf_cycle_second_pass_rebuilds_first_fock :
  let mixing_fraction := (1 # 4)%Q in
  let tolerance := (1 # 10000)%Q in
  let fr0 := @Build_frame qnumpy (mat1 0) None None in
  let fr1 := @Build_frame qnumpy (mat1 (1 # 4))
               (Some (mat1 1)) (Some (mat1 (-1))) in
  let fr2 := @Build_frame qnumpy (mat1 (7 # 16))
               (Some (mat1 1)) (Some (mat1 (-1))) in
  @scf_body qnumpy qff mixing_fraction tolerance fr0 atom_world
    = (Ok (Next fr1), atom_world)
  /\ @scf_body qnumpy qff mixing_fraction tolerance fr1 atom_world
    = (Ok (Next fr2), atom_world)
  /\ @scf_loop qnumpy qff mixing_fraction tolerance 2 fr0 atom_world
    = (Ok (Next fr2), atom_world)
  /\ fst (@scf_cycle qnumpy qff 2 mixing_fraction tolerance atom_world)
    = Ok (mat1 1, mat1 (-1))
  /\ @fast_fock_matrix qnumpy qff atom (hamiltonian_matrix atom)
       (interaction_matrix atom) (mat1 1) = Ok (mat1 (-1 # 2))
  /\ mat1 (-1) <> mat1 (-1 # 2).
Proof.
  repeat split; try reflexivity.
  discriminate.
Qed.

(** C2.  On the one-orbital system with [H = [[-1]]], [M = [[1/2]]],
    [D = [[1]]] stored, called with [H' = [[0]]] and the stored [M], [D],
    [chi]: the einsum path returns [[[-1/2]]], built from the stored [H],
    where the accelerated path returns [[[1/2]]], built from [H'].  Called
    with the stored [H] they agree. *)
Theorem fock_paths_differ_on_foreign_arguments :
  @calculate_fock_matrix qnumpy atom_fixed
     (mat1 0) (mat1 (1 # 2)) (mat1 1) chi1 = Ok (mat1 (-1 # 2))
  /\ @fast_fock_matrix qnumpy qff atom_fixed
       (mat1 0) (mat1 (1 # 2)) (mat1 1) = Ok (mat1 (1 # 2))
  /\ @calculate_fock_matrix qnumpy atom_fixed
       (mat1 (-1)) (mat1 (1 # 2)) (mat1 1) chi1
     = @fast_fock_matrix qnumpy qff atom_fixed
         (mat1 (-1)) (mat1 (1 # 2)) (mat1 1).
Proof.
  repeat split; vm_compute; reflexivity.
Qed.

(** [F = diag(1, 2)] with [Q = 6], [K = 1]: [F] is symmetric and [eigh]
    returns its decomposition, the occupied count is 6, the slice [:, :6] of
    the 2 x 2 eigenvector array is the whole array, and [D] is the identity,
    of trace 2. *)
Lemma density_trace_differs_when_count_exceeds_size :
  mtranspose integers diag12 = diag12
  /\ eigh_diagonal integers diag12 = Ok ([1; 2], identity integers 2)
  /\ @num_occ znumpy crowded diag12 = Ok 6
  /\ @calculate_density_matrix znumpy crowded diag12
     = Ok (identity integers 2)
  /\ trace integers (identity integers 2) = 2
  /\ trace integers (identity integers 2) <> of_nat integers 6.
Proof.
  repeat split; try (vm_compute; reflexivity).
  vm_compute. discriminate.
Qed.

End Runs.

(** ** The statements above at concrete systems *)

Section Witnesses.

Import ListModel Examples.

(** [Q = 4], [K = 2], [n = 4]: four occupied orbitals; [Q = 3]: two, where
    the reordered formula gives none. *)
Lemma num_occ_floor_division_order_witness :
  orbitals_per_atom quad <> 0
  /\ @num_occ znumpy quad (identity integers 4) = Ok 4
  /\ @num_occ znumpy quad_odd (identity integers 4) = Ok 2
  /\ @num_occ znumpy quad_odd (identity integers 4)
     <> Ok (num_occ_reordered 3 4 2).
Proof.
  split; [discriminate |].
  split.
  - exact (proj1 (proj2 (proj2 (proj2
             (@num_occ_floor_division_order znumpy quad (identity integers 4)))))
             eq_refl eq_refl eq_refl).
  - exact (proj2 (proj2 (proj2 (proj2
             (@num_occ_floor_division_order znumpy quad_odd (identity integers 4)))))
             eq_refl eq_refl eq_refl).
Defined.

(** The one-orbital system with tolerance 1/2: the residuals are 1, 3/4,
    9/16 and 27/64, so the fourth pass converges. *)
Lemma scf_cycle_returns_at_first_convergence_witness :
  @scf_cycle qnumpy qff 100 (1 # 4)%Q (1 # 2)%Q atom_world
  = (Ok (mat1 1, mat1 (-1)),
     {| obj := set_converged true atom; stdout := [] |}).
Proof.
  refine (proj1 (@scf_cycle_returns_at_first_convergence qnumpy qff
                   100 (1 # 4)%Q (1 # 2)%Q atom_world
                   (mat1 (-1)) (mat1 1) (mat1 (37 # 64)) 3 _ _ _ _ _ _)).
  - vm_compute. reflexivity.
  - vm_compute. reflexivity.
  - vm_compute. lia.
  - intros j Hj.
    destruct j as [| [| [| j]]]; [| | | lia].
    + exists (mat1 0). split; vm_compute; reflexivity.
    + exists (mat1 (1 # 4)). split; vm_compute; reflexivity.
    + exists (mat1 (7 # 16)). split; vm_compute; reflexivity.
  - vm_compute. reflexivity.
  - vm_compute. reflexivity.
Defined.

(** The one-orbital system, default mixing and tolerance, two iterations
    allowed: residuals 1 and 3/4, no convergence. *)
Lemma scf_cycle_without_convergence_witness :
  let out := @scf_cycle qnumpy qff 2 (1 # 4)%Q (1 # 10000)%Q atom_world in
  fst out = Ok (mat1 1, mat1 (-1))
  /\ obj (snd out) = atom
  /\ stdout (snd out) = [warning]
  /\ (converged atom = false -> converged (obj (snd out)) = false).
Proof.
  refine (@scf_cycle_without_convergence qnumpy qff
            2 (1 # 4)%Q (1 # 10000)%Q atom_world
            (mat1 (-1)) (mat1 1) (mat1 (7 # 16)) _ _ _ _ _).
  - lia.
  - vm_compute. reflexivity.
  - vm_compute. reflexivity.
  - intros j Hj. change (Z.to_nat 2) with 2%nat in Hj.
    destruct j as [| [| j]]; [| | lia].
    + exists (mat1 0). split; vm_compute; reflexivity.
    + exists (mat1 (1 # 4)). split; vm_compute; reflexivity.
  - vm_compute. reflexivity.
Defined.

(** No iteration allowed: the warning, then [UnboundLocalError]. *)
Lemma scf_cycle_needs_an_iteration_witness :
  @scf_cycle qnumpy qff 0 (1 # 4)%Q (1 # 10000)%Q atom_world
  = (Raise (UnboundLocalError "density_matrix"),
     {| obj := atom; stdout := [warning] |}).
Proof.
  refine (proj1 (@scf_cycle_needs_an_iteration qnumpy qff)
            0 (1 # 4)%Q (1 # 10000)%Q atom_world _).
  lia.
Defined.

(** [F = diag(1, 2)] over the integers with [Q = 2], [K = 2]: one occupied
    orbital, [D = [[1, 0], [0, 0]]]. *)
Lemma density_matrix_symmetric_with_trace_num_occ_witness :
  exists D : mat integers,
    @calculate_density_matrix znumpy pair diag12 = Ok D
    /\ D = Build_mat integers 2 2 [[1; 0]; [0; 0]]
    /\ mtranspose integers D = D
    /\ trace integers D = 1.
Proof.
  assert (Hc : eigh_contract integers diag12 [1; 2] (identity integers 2)).
  { constructor.
    - vm_compute. reflexivity.
    - reflexivity.
    - reflexivity.
    - reflexivity.
    - intros k Hk. change (nrows diag12) with 2%nat in Hk |- *.
      destruct k as [| [| k]]; [reflexivity | reflexivity | lia].
    - intros i k Hi Hk. change (nrows diag12) with 2%nat in Hi, Hk |- *.
      destruct i as [| [| i]]; [| | lia];
        (destruct k as [| [| k]]; [reflexivity | reflexivity | lia]).
    - intros k l Hkl Hl. change (nrows diag12) with 2%nat in Hl.
      destruct l as [| [| l]]; [| | lia];
        (destruct k as [| [| k]]; [reflexivity || lia ..]). }
  destruct (density_matrix_symmetric_with_trace_num_occ
              integers (eigh_diagonal integers) pair diag12
              [1; 2] (identity integers 2)
              Z.add_comm Z.add_assoc Z.add_0_l Z.mul_comm
              eq_refl Hc ltac:(discriminate) ltac:(vm_compute; split; discriminate))
    as [D [Hd [_ [_ [_ [_ [_ [_ [Hsym Htr]]]]]]]]].
  exists D. split; [exact Hd |]. split; [| split; [exact Hsym | exact Htr]].
  vm_compute in Hd. injection Hd as <-. reflexivity.
Defined.

(** [kernel] on the one-orbital system: [initialize] stores [F = [[-1]]] and
    [D = [[1]]], [scf_cycle] returns [D = [[1]]], [F = [[-1/2]]] at once,
    the electronic energy is [(-1 - 1/2) * 1] and the total [1 - 3/2]. *)
Lemma kernel_total_energy_witness :
  exists final : @world qnumpy,
    @kernel qnumpy qff atom_world = (Ok (-1 # 2)%Q, final)
    /\ density_matrix (obj final) = mat1 1
    /\ fock_matrix (obj final) = Some (mat1 (-1 # 2))
    /\ energy_scf (obj final) = Some (-3 # 2)%Q
    /\ total_energy (obj final) = Some (-1 # 2)%Q
    /\ stdout final = [].
Proof.
  refine (kernel_total_energy rationals (eigh_diagonal rationals) qff
            atom_world
            (@Build_world qnumpy
               (@set_density_matrix qnumpy (mat1 1)
                  (@set_fock_matrix qnumpy (mat1 (-1)) atom)) [])
            (@Build_world qnumpy
               (set_converged true
                  (@set_density_matrix qnumpy (mat1 1)
                     (@set_fock_matrix qnumpy (mat1 (-1)) atom))) [])
            (mat1 1) (mat1 (-1 # 2)) _ _ _ _).
  - reflexivity.
  - reflexivity.
  - reflexivity.
  - reflexivity.
Defined.

End Witnesses.

(** * Further properties of the class *)

(** ** Every outcome of [scf_cycle] *)

Section CycleOutcomes.

Context {np : NumPy} {ff : FockFast np}.

(** How the loop can end: through the [return], at the end of the range, or
    in an exception of a collaborator. *)
Lemma scf_loop_outcomes (mixing_fraction convergence_tolerance : float)
    (n : nat) (fr : frame) (w : world) :
  (exists F D,
      scf_loop mixing_fraction convergence_tolerance n fr w
      = (Ok (Return (D, F)), mark_converged w)
      /\ stored_fock (obj w) = Ok F
      /\ calculate_density_matrix (obj w) F = Ok D)
  \/ (n = 0%nat
      /\ scf_loop mixing_fraction convergence_tolerance n fr w
         = (Ok (Next fr), w))
  \/ ((0 < n)%nat
      /\ exists fr' F D,
           scf_loop mixing_fraction convergence_tolerance n fr w
           = (Ok (Next fr'), w)
           /\ stored_fock (obj w) = Ok F
           /\ calculate_density_matrix (obj w) F = Ok D
           /\ local_fock_matrix fr' = Some F
           /\ local_density_matrix fr' = Some D)
  \/ ((0 < n)%nat
      /\ exists e,
           scf_loop mixing_fraction convergence_tolerance n fr w
           = (Raise e, w)).
Proof.
  pose proof (scf_loop_effect mixing_fraction convergence_tolerance n fr w)
    as He.
  destruct (scf_loop mixing_fraction convergence_tolerance n fr w)
    as [[[fr' | v] | e] w'] eqn:E; simpl in He.
  - destruct He as [[-> _] | [_ [F [D [old [diff [Hr _]]]]]]];
      [| discriminate].
    destruct n as [| n].
    + right. left. split; [reflexivity |].
      simpl in E. injection E as <-. reflexivity.
    + right. right. left. split; [lia |].
      destruct (scf_loop_fock_of_stored_density _ _ _ _ _ _ _ E)
        as [_ [F [D [HF [HD [Hf Hd]]]]]].
      exists fr', F, D. auto.
  - destruct He as [[_ Hnr] | [-> [F [D [old [diff [Hr [HF [HD _]]]]]]]]].
    + now elim (Hnr v).
    + injection Hr as ->. left. exists F, D. auto.
  - destruct He as [[-> _] | [_ [F [D [old [diff [Hr _]]]]]]];
      [| discriminate].
    right. right. right. split.
    + destruct n as [| n]; [discriminate | lia].
    + exists e. reflexivity.
Qed.

(** X1.  Every run of [scf_cycle] ends in one of four ways: it returns a
    pair through the convergence test, having set [converged] and printed
    nothing; it returns a pair after the last iteration, having printed the
    warning once and left the instance alone; with no iteration allowed it
    prints the warning and raises [UnboundLocalError] on [density_matrix];
    or an exception of a collaborator leaves it with nothing printed and
    nothing changed. *)
Theorem scf_cycle_outcomes
    (max_scf_iterations : Z) (mixing_fraction convergence_tolerance : float)
    (w : world) :
  let out := scf_cycle max_scf_iterations mixing_fraction
               convergence_tolerance w in
  let warned := {| obj := obj w; stdout := (stdout w ++ [warning])%list |} in
  (exists D F, out = (Ok (D, F), mark_converged w))
  \/ (0 < max_scf_iterations /\ exists D F, out = (Ok (D, F), warned))
  \/ (max_scf_iterations <= 0
      /\ out = (Raise (UnboundLocalError "density_matrix"), warned))
  \/ (0 < max_scf_iterations /\ exists e, out = (Raise e, w)).
Proof.
  intros out warned. subst out warned. rewrite scf_cycle_unfold.
  destruct (scf_loop_outcomes mixing_fraction convergence_tolerance
              (Z.to_nat max_scf_iterations)
              {| old_density_matrix := copy (density_matrix (obj w));
                 local_density_matrix := None;
                 local_fock_matrix := None |} w)
    as [[F [D [E _]]] | [[Hn E] | [[Hn [fr' [F [D [E [_ [_ [Hf Hd]]]]]]]]
                                  | [Hn [e E]]]]];
    rewrite E.
  - left. exists D, F. reflexivity.
  - right. right. left. split; [lia | reflexivity].
  - right. left. split; [lia |]. exists D, F. rewrite Hd, Hf. reflexivity.
  - right. right. right. split; [lia |]. exists e. reflexivity.
Qed.

(** X2.  A pair returned by [scf_cycle] is one step from the density stored
    in the instance: [F] is the accelerated Fock matrix of the stored
    [density_matrix] and [D] the density built from [F].  So the pair does
    not depend on the iteration cap, the mixing fraction or the tolerance:
    two successful calls on one instance return the same pair. *)
Theorem scf_cycle_returns_step_of_stored_density
    (max_scf_iterations : Z) (mixing_fraction convergence_tolerance : float)
    (w w' : world) (D F : matrix) :
  scf_cycle max_scf_iterations mixing_fraction convergence_tolerance w
    = (Ok (D, F), w') ->
  stored_fock (obj w) = Ok F
  /\ calculate_density_matrix (obj w) F = Ok D
  /\ forall (max2 : Z) (mix2 tol2 : float) (w2 : world)
            (value : matrix * matrix),
       scf_cycle max2 mix2 tol2 w = (Ok value, w2) -> value = (D, F).
Proof.
  assert (Hstep : forall max mixf tol w1 D1 F1,
            scf_cycle max mixf tol w = (Ok (D1, F1), w1) ->
            stored_fock (obj w) = Ok F1
            /\ calculate_density_matrix (obj w) F1 = Ok D1).
  { intros max mixf tol w1 D1 F1. rewrite scf_cycle_unfold.
    destruct (scf_loop_outcomes mixf tol (Z.to_nat max)
                {| old_density_matrix := copy (density_matrix (obj w));
                   local_density_matrix := None;
                   local_fock_matrix := None |} w)
      as [[F0 [D0 [E [HF HD]]]] | [[Hn E]
           | [[Hn [fr' [F0 [D0 [E [HF [HD [Hf Hd]]]]]]]] | [Hn [e E]]]]];
      rewrite E; simpl.
    - intros H. injection H as <- <- _. auto.
    - discriminate.
    - rewrite Hd, Hf. intros H. injection H as <- <- _. auto.
    - discriminate. }
  intros Hrun. destruct (Hstep _ _ _ _ _ _ Hrun) as [HF HD].
  split; [exact HF |]. split; [exact HD |].
  intros max2 mix2 tol2 w2 [D2 F2] Hrun2.
  destruct (Hstep _ _ _ _ _ _ Hrun2) as [HF2 HD2].
  rewrite HF in HF2. injection HF2 as <-.
  rewrite HD in HD2. injection HD2 as <-. reflexivity.
Qed.

(** X3.  With at least one iteration allowed, an exception raised in the
    first pass (by the Fock build, by the density build, or by the
    subtraction of the residual) leaves [scf_cycle] as it is: nothing is
    printed and the instance is unchanged. *)
Theorem scf_cycle_propagates_first_pass_error
    (max_scf_iterations : Z) (mixing_fraction convergence_tolerance : float)
    (w : world) (e : exn) :
  0 < max_scf_iterations ->
  stored_fock (obj w) = Raise e
  \/ (exists F, stored_fock (obj w) = Ok F
                /\ calculate_density_matrix (obj w) F = Raise e)
  \/ (exists F D, stored_fock (obj w) = Ok F
                  /\ calculate_density_matrix (obj w) F = Ok D
                  /\ arr_sub (copy (density_matrix (obj w))) D = Raise e) ->
  scf_cycle max_scf_iterations mixing_fraction convergence_tolerance w
  = (Raise e, w).
Proof.
  intros Hmax Herr. rewrite scf_cycle_unfold.
  destruct (Z.to_nat max_scf_iterations) as [| n] eqn:En; [lia |].
  assert (Hbody : scf_body mixing_fraction convergence_tolerance
                    {| old_density_matrix := copy (density_matrix (obj w));
                       local_density_matrix := None;
                       local_fock_matrix := None |} w = (Raise e, w)).
  { unfold scf_body, stored_fock in *. autorewrite with run.
    destruct Herr as [HF | [[F [HF HD]] | [F [D [HF [HD Hs]]]]]].
    - rewrite HF. reflexivity.
    - rewrite HF. autorewrite with run. rewrite HD. reflexivity.
    - rewrite HF. autorewrite with run. rewrite HD.
      autorewrite with run. simpl. rewrite Hs. reflexivity. }
  change (scf_loop mixing_fraction convergence_tolerance (S n) ?fr w)
    with (bind (scf_body mixing_fraction convergence_tolerance fr)
            (fun c => match c with
                      | Next fr' =>
                          scf_loop mixing_fraction convergence_tolerance n fr'
                      | Return value => ret (Return value)
                      end) w).
  unfold bind at 1. rewrite Hbody. reflexivity.
Qed.

End CycleOutcomes.

(** ** Every outcome of [initialize] and [kernel] *)

Section KernelOutcomes.

Context {np : NumPy} {ff : FockFast np}.

(** The density build reads the instance for [ionic_charge] and
    [orbitals_per_atom] only. *)
Lemma calculate_density_matrix_reads_counts (s s' : scf) (F : matrix) :
  ionic_charge s' = ionic_charge s ->
  orbitals_per_atom s' = orbitals_per_atom s ->
  calculate_density_matrix s' F = calculate_density_matrix s F.
Proof.
  intros HQ HK. unfold calculate_density_matrix, num_occ.
  now rewrite HQ, HK.
Qed.

Lemma initialize_unfold (w : world) :
  initialize w =
  match stored_fock (obj w) with
  | Raise e => (Raise e, w)
  | Ok F =>
      match calculate_density_matrix (obj w) F with
      | Raise e =>
          (Raise e, {| obj := set_fock_matrix F (obj w); stdout := stdout w |})
      | Ok D =>
          (Ok tt, {| obj := set_density_matrix D (set_fock_matrix F (obj w));
                     stdout := stdout w |})
      end
  end.
Proof.
  unfold initialize, stored_fock. autorewrite with run.
  destruct (fast_fock_matrix _ _ _ _) as [F | e]; [| reflexivity].
  autorewrite with run. simpl.
  rewrite (calculate_density_matrix_reads_counts (obj w)
             (set_fock_matrix F (obj w)) F eq_refl eq_refl).
  destruct (calculate_density_matrix (obj w) F) as [D | e]; reflexivity.
Qed.

Lemma kernel_unfold (w : world) :
  kernel w =
  match initialize w with
  | (Raise e, w1) => (Raise e, w1)
  | (Ok _, w1) =>
      match scf_cycle default_max_scf_iterations default_mixing_fraction
              default_convergence_tolerance w1 with
      | (Raise e, w2) => (Raise e, w2)
      | (Ok (D, F), w2) =>
          let s3 := set_fock_matrix F (set_density_matrix D (obj w2)) in
          match calculate_energy_scf s3 (hamiltonian_matrix (obj w2)) F D with
          | Raise e => (Raise e, {| obj := s3; stdout := stdout w2 |})
          | Ok e =>
              let total := float_add (energy_ion (obj w2)) e in
              (Ok total,
               {| obj := set_total_energy total (set_energy_scf e s3);
                  stdout := stdout w2 |})
          end
      end
  end.
Proof.
  unfold kernel. unfold bind at 1.
  destruct (initialize w) as [[[] | e] w1]; [| reflexivity].
  unfold bind at 1.
  destruct (scf_cycle _ _ _ w1) as [[[D F] | e] w2]; [| reflexivity].
  autorewrite with run. simpl.
  destruct (calculate_energy_scf _ _ F D) as [e | e]; reflexivity.
Qed.

(** *** What the methods keep *)

Lemma same_parameters_refl (s : scf) : same_parameters s s.
Proof. repeat split. Qed.

Lemma same_parameters_trans (s1 s2 s3 : scf) :
  same_parameters s1 s2 -> same_parameters s2 s3 -> same_parameters s1 s3.
Proof.
  intros [A1 [A2 [A3 [A4 [A5 A6]]]]] [B1 [B2 [B3 [B4 [B5 B6]]]]].
  repeat split; congruence.
Qed.

Lemma initialize_keeps (w : world) :
  same_parameters (obj w) (obj (snd (initialize w)))
  /\ converged (obj (snd (initialize w))) = converged (obj w)
  /\ stdout (snd (initialize w)) = stdout w.
Proof.
  rewrite initialize_unfold.
  destruct (stored_fock (obj w)) as [F | e].
  - destruct (calculate_density_matrix (obj w) F) as [D | e];
      simpl; repeat split.
  - simpl. repeat split.
Qed.

Lemma scf_cycle_keeps
    (max_scf_iterations : Z) (mixing_fraction convergence_tolerance : float)
    (w : world) :
  let w' := snd (scf_cycle max_scf_iterations mixing_fraction
                   convergence_tolerance w) in
  same_parameters (obj w) (obj w')
  /\ keeps_converged (obj w) (obj w').
Proof.
  intros w'.
  destruct (scf_cycle_effect max_scf_iterations mixing_fraction
              convergence_tolerance w) as [Hobj | [Hobj _]];
    fold w' in Hobj; rewrite Hobj.
  - split; [apply same_parameters_refl | intros H; exact H].
  - split; [repeat split | intros _; reflexivity].
Qed.

Lemma kernel_keeps (w : world) :
  same_parameters (obj w) (obj (snd (kernel w)))
  /\ keeps_converged (obj w) (obj (snd (kernel w))).
Proof.
  rewrite kernel_unfold.
  destruct (initialize_keeps w) as [Hp1 [Hc1 _]].
  destruct (initialize w) as [[[] | e] w1]; simpl in Hp1, Hc1.
  - pose proof (scf_cycle_keeps default_max_scf_iterations
                  default_mixing_fraction default_convergence_tolerance w1)
      as [Hp2 Hc2].
    destruct (scf_cycle _ _ _ w1) as [[[D F] | e] w2]; simpl in Hp2, Hc2.
    + assert (Hp : same_parameters (obj w) (obj w2))
        by (eapply same_parameters_trans; eassumption).
      assert (Hc : keeps_converged (obj w) (obj w2)).
      { intros H. apply Hc2. now rewrite Hc1. }
      simpl.
      destruct (calculate_energy_scf _ _ F D) as [e | e]; simpl;
        (split; [exact Hp | exact Hc]).
    + simpl. split.
      * eapply same_parameters_trans; eassumption.
      * intros H. apply Hc2. now rewrite Hc1.
    - simpl. split; [exact Hp1 |]. intros H. now rewrite Hc1.
Qed.

(** X4.  [initialize] is not all-or-nothing: when the Fock build succeeds
    and the density build raises, the exception leaves the new Fock matrix
    stored in [fock_matrix] beside the old [density_matrix], and [kernel]
    stops there with the same exception and the same instance. *)
Theorem initialize_stores_fock_before_density_fails
    (w : world) (F : matrix) (e : exn) :
  stored_fock (obj w) = Ok F ->
  calculate_density_matrix (obj w) F = Raise e ->
  let half := {| obj := set_fock_matrix F (obj w); stdout := stdout w |} in
  initialize w = (Raise e, half)
  /\ kernel w = (Raise e, half)
  /\ fock_matrix (obj half) = Some F
  /\ density_matrix (obj half) = density_matrix (obj w).
Proof.
  intros HF HD half.
  assert (Hi : initialize w = (Raise e, half)).
  { rewrite initialize_unfold, HF, HD. reflexivity. }
  split; [exact Hi |].
  split; [rewrite kernel_unfold, Hi; reflexivity |].
  split; reflexivity.
Qed.

(** X5.  A total energy returned by [kernel] is fixed by two steps from the
    density [D0] the instance was built with: [F1] and [D1] are the Fock
    matrix of [D0] and its density ([initialize]), [F2] and [D2] the Fock
    matrix of [D1] and its density (the pair [scf_cycle] returns, whatever
    its passes did), and the energy is that of [H], [F2], [D2] plus
    [E_ion].  [D2], [F2] and the two energies are what the instance holds
    afterwards. *)
Theorem kernel_is_two_steps (w w' : world) (total : float) :
  kernel w = (Ok total, w') ->
  let s := obj w in
  exists F1 D1 F2 D2 e,
    fast_fock_matrix s (hamiltonian_matrix s) (interaction_matrix s)
      (density_matrix s) = Ok F1
    /\ calculate_density_matrix s F1 = Ok D1
    /\ fast_fock_matrix s (hamiltonian_matrix s) (interaction_matrix s) D1
       = Ok F2
    /\ calculate_density_matrix s F2 = Ok D2
    /\ calculate_energy_scf s (hamiltonian_matrix s) F2 D2 = Ok e
    /\ total = float_add (energy_ion s) e
    /\ density_matrix (obj w') = D2
    /\ fock_matrix (obj w') = Some F2
    /\ energy_scf (obj w') = Some e
    /\ total_energy (obj w') = Some total.
Proof.
  intros Hk s. rewrite kernel_unfold, initialize_unfold in Hk.
  fold s in Hk.
  destruct (stored_fock s) as [F1 | e1] eqn:HF1; [| discriminate].
  destruct (calculate_density_matrix s F1) as [D1 | e1] eqn:HD1;
    [| discriminate].
  set (w1 := {| obj := set_density_matrix D1 (set_fock_matrix F1 s);
                stdout := stdout w |}) in Hk.
  destruct (scf_cycle _ _ _ w1) as [[[D2 F2] | e2] w2] eqn:Hc;
    [| discriminate].
  destruct (scf_cycle_returns_step_of_stored_density _ _ _ _ _ _ _ Hc)
    as [HF2 [HD2 _]].
  pose proof (scf_cycle_keeps default_max_scf_iterations
                default_mixing_fraction default_convergence_tolerance w1)
    as [[HH [_ [_ [HE _]]]] _].
  rewrite Hc in HH, HE. simpl in HH, HE.
  simpl in Hk. rewrite HH, HE in Hk.
  destruct (calculate_energy_scf _ (hamiltonian_matrix s) F2 D2)
    as [e | e] eqn:Hen; [| discriminate].
  injection Hk as <- <-.
  exists F1, D1, F2, D2, e.
  repeat split; try assumption; reflexivity.
Qed.

(** X6.  Whatever [kernel] or [initialize] returns or raises, the system
    parameters [hamiltonian_matrix], [interaction_matrix], [chi_tensor],
    [energy_ion], [ionic_charge] and [orbitals_per_atom] are as before, and
    [initialize] neither touches [converged] nor prints. *)
Theorem kernel_keeps_system_parameters (w : world) :
  same_parameters (obj w) (obj (snd (kernel w)))
  /\ same_parameters (obj w) (obj (snd (initialize w)))
  /\ converged (obj (snd (initialize w))) = converged (obj w)
  /\ stdout (snd (initialize w)) = stdout w.
Proof.
  split; [apply kernel_keeps | apply initialize_keeps].
Qed.

(** X7.  No method ever clears [converged]: once [True] it is [True] after
    [initialize], after [scf_cycle] with any arguments (a run that prints
    the warning included) and after [kernel], whatever they return or
    raise. *)
Theorem converged_is_never_cleared (w : world) :
  converged (obj w) = true ->
  converged (obj (snd (initialize w))) = true
  /\ (forall (max_scf_iterations : Z)
             (mixing_fraction convergence_tolerance : float),
        converged (obj (snd (scf_cycle max_scf_iterations mixing_fraction
                               convergence_tolerance w))) = true)
  /\ converged (obj (snd (kernel w))) = true.
Proof.
  intros Hc. split; [| split].
  - destruct (initialize_keeps w) as [_ [H _]]. now rewrite H.
  - intros max mixf tol. now apply (scf_cycle_keeps max mixf tol w).
  - now apply (kernel_keeps w).
Qed.

End KernelOutcomes.

(** ** [calculate_density_matrix] for any occupied count *)

Section DensityForAnyCount.

Import ListModel ListModelMore.

Variable S : scalar.
Local Abbreviation R := (carrier S).
Variable eigh : mat S -> result (list R * mat S).

Lemma slice_stop_le (len : nat) (k : Z) : (slice_stop len k <= len)%nat.
Proof.
  unfold slice_stop. destruct (Z.ltb_spec k 0); lia.
Qed.

(** The product [v[:, :k] @ v[:, :k].T] for a square [v] and any [k]: the
    sum runs over the columns the slice keeps. *)
Lemma sliced_product (v : mat S) (n : nat) (k : Z) :
  nrows v = n -> ncols v = n ->
  mmatmul S (mtake_cols S v k) (mtranspose S (mtake_cols S v k))
  = Ok (mk S n n (fun i j =>
          sum_n S (slice_stop n k)
            (fun c => smul S (get S v i c) (get S v j c)))).
Proof.
  intros Hr Hc.
  unfold mmatmul, mtake_cols, mtranspose. simpl.
  rewrite Hr, Hc, Nat.eqb_refl.
  f_equal. apply mk_ext. intros i j Hi Hj.
  apply sum_n_ext. intros c Hcol.
  rewrite !get_mk by assumption. reflexivity.
Qed.

Lemma density_matrix_value (s : @scf (numpy S eigh)) (F : mat S)
    (w : list R) (V : mat S) :
  eigh F = Ok (w, V) ->
  nrows V = nrows F -> ncols V = nrows F ->
  orbitals_per_atom s <> 0 ->
  @calculate_density_matrix (numpy S eigh) s F
  = Ok (mk S (nrows F) (nrows F) (fun i j =>
          sum_n S
            (slice_stop (nrows F)
               (((ionic_charge s / 2) * Z.of_nat (nrows F))
                / orbitals_per_atom s))
            (fun c => smul S (get S V i c) (get S V j c)))).
Proof.
  intros He Hr Hc HK.
  unfold calculate_density_matrix, num_occ. simpl.
  rewrite (floordiv_nonzero _ _ HK). simpl. rewrite He. simpl.
  now apply sliced_product.
Qed.

(** X8.  Over exact scalars, when [eigh] returns a square eigenvector array
    of the size [n] of [F] with columns of norm one, then for every occupied
    count, in range or not, [calculate_density_matrix] returns an [n] by
    [n] array equal to its transpose whose trace is the number of columns
    the slice [:, :num_occ] keeps: [n] for a count of [n] or more, and
    [n + num_occ] (or none) for a negative count, which drops columns from
    the end. *)
Theorem density_trace_counts_kept_columns
    (s : @scf (numpy S eigh)) (F : mat S) (w : list R) (V : mat S) :
  (forall a b : R, sadd S a b = sadd S b a) ->
  (forall a b c : R, sadd S a (sadd S b c) = sadd S (sadd S a b) c) ->
  (forall a : R, sadd S (s0 S) a = a) ->
  (forall a b : R, smul S a b = smul S b a) ->
  eigh F = Ok (w, V) ->
  nrows V = nrows F -> ncols V = nrows F ->
  (forall k, (k < nrows F)%nat ->
     sum_n S (nrows F) (fun i => smul S (get S V i k) (get S V i k)) = s1 S) ->
  orbitals_per_atom s <> 0 ->
  let n := nrows F in
  let occ := ((ionic_charge s / 2) * Z.of_nat n) / orbitals_per_atom s in
  let kept := slice_stop n occ in
  exists D : mat S,
    @calculate_density_matrix (numpy S eigh) s F = Ok D
    /\ nrows D = n /\ ncols D = n
    /\ mtranspose S D = D
    /\ trace S D = of_nat S kept
    /\ (Z.of_nat n <= occ -> kept = n)
    /\ (occ < 0 -> kept = Z.to_nat (Z.of_nat n + occ)).
Proof.
  intros add_comm add_assoc add_0_l mul_comm He Hr Hc Hunit HK n occ kept.
  eexists. split; [apply (density_matrix_value s F w V He Hr Hc HK) |].
  fold n occ kept.
  assert (Hkept : (kept <= n)%nat) by apply slice_stop_le.
  split; [reflexivity |]. split; [reflexivity |].
  split; [| split; [| split]].
  - unfold mtranspose. simpl. apply mk_ext. intros i j Hi Hj.
    rewrite get_mk by assumption.
    apply sum_n_ext. intros c _. apply mul_comm.
  - unfold trace. simpl.
    rewrite (sum_n_ext S n _
               (fun i => sum_n S kept
                           (fun c => smul S (get S V i c) (get S V i c)))).
    + rewrite (sum_n_swap S add_comm add_assoc add_0_l).
      unfold of_nat. apply sum_n_ext. intros c Hcol. apply Hunit.
      fold n. lia.
    + intros i Hi. now apply get_mk.
  - intros Hocc. subst kept. unfold slice_stop.
    destruct (Z.ltb_spec occ 0); lia.
  - intros Hocc. subst kept. unfold slice_stop.
    destruct (Z.ltb_spec occ 0); lia.
Qed.

(** X10.  An ionic charge of 0 or 1 makes the occupied count zero.  With a
    zero count the slice [:, :0] keeps no column: when [eigh] succeeds on
    [F], [calculate_density_matrix] returns the all-zero array of the size
    of the eigenvector array, whatever the eigenvectors are; when [eigh]
    raises, so does [calculate_density_matrix], with the same exception.
    The zero count itself raises nothing. *)
Theorem density_is_zero_without_occupied_orbital
    (s : @scf (numpy S eigh)) (F : mat S) :
  orbitals_per_atom s <> 0 ->
  let occ := ((ionic_charge s / 2) * Z.of_nat (nrows F))
             / orbitals_per_atom s in
  (0 <= ionic_charge s <= 1 -> occ = 0)
  /\ (occ = 0 ->
      (forall (w : list R) (V : mat S),
          eigh F = Ok (w, V) ->
          @calculate_density_matrix (numpy S eigh) s F
          = Ok (zeros S (nrows V) (nrows V)))
      /\ (forall e : exn,
            eigh F = Raise e ->
            @calculate_density_matrix (numpy S eigh) s F = Raise e)).
Proof.
  intros HK occ. split.
  - intros HQ. subst occ.
    replace (ionic_charge s / 2) with 0
      by (symmetry; apply Z.div_small; lia).
    reflexivity.
  - intros Hocc.
    assert (E : @calculate_density_matrix (numpy S eigh) s F
                = (let* eig := eigh F in
                   mmatmul S (mtake_cols S (snd eig) 0)
                     (mtranspose S (mtake_cols S (snd eig) 0)))).
    { unfold calculate_density_matrix, num_occ. simpl.
      rewrite (floordiv_nonzero _ _ HK). simpl. fold occ. rewrite Hocc.
      reflexivity. }
    split.
    + intros w V He. rewrite E, He. reflexivity.
    + intros e He. rewrite E, He. reflexivity.
Qed.

End DensityForAnyCount.

(** ** The density matrix is a projector *)

Section DensityProjector.

Import ListModel ListModelMore.

Variable S : scalar.
Local Abbreviation R := (carrier S).
Variable eigh : mat S -> result (list R * mat S).

Hypothesis scalars_semiring :
  semi_ring_theory (s0 S) (s1 S) (sadd S) (smul S) eq.

Add Ring scalars_ring : scalars_semiring.

Lemma semiring_add_comm (a b : R) : sadd S a b = sadd S b a.
Proof. ring. Qed.

Lemma semiring_add_assoc (a b c : R) :
  sadd S a (sadd S b c) = sadd S (sadd S a b) c.
Proof. ring. Qed.

Lemma semiring_add_0_l (a : R) : sadd S (s0 S) a = a.
Proof. ring. Qed.

Lemma sum_n_scale_l (n : nat) (a : R) (f : nat -> R) :
  smul S a (sum_n S n f) = sum_n S n (fun i => smul S a (f i)).
Proof.
  induction n as [| n IH]; simpl.
  - ring.
  - rewrite <- IH. ring.
Qed.

Lemma sum_n_scale_r (n : nat) (a : R) (f : nat -> R) :
  smul S (sum_n S n f) a = sum_n S n (fun i => smul S (f i) a).
Proof.
  induction n as [| n IH]; simpl.
  - ring.
  - rewrite <- IH. ring.
Qed.

(** A sum against a Kronecker delta picks one term. *)
Lemma sum_n_delta (n k : nat) (g : nat -> R) :
  sum_n S n (fun l =>
    smul S (g l) (if Nat.eqb k l then s1 S else s0 S))
  = if Nat.ltb k n then g k else s0 S.
Proof.
  induction n as [| n IH]; simpl.
  - reflexivity.
  - rewrite IH.
    destruct (Nat.ltb_spec k n) as [Hlt | Hge].
    + replace (Nat.eqb k n) with false
        by (symmetry; apply Nat.eqb_neq; lia).
      replace (Nat.ltb k (Datatypes.S n)) with true
        by (symmetry; apply Nat.ltb_lt; lia).
      ring.
    + destruct (Nat.eqb_spec k n) as [-> | Hne].
      * replace (Nat.ltb n (Datatypes.S n)) with true
          by (symmetry; apply Nat.ltb_lt; lia).
        ring.
      * replace (Nat.ltb k (Datatypes.S n)) with false
          by (symmetry; apply Nat.ltb_ge; lia).
        ring.
Qed.

(** [(v[:, :c] @ v[:, :c].T)] squared, entry by entry, for orthonormal
    columns. *)
Lemma projector_entry (a : nat -> nat -> R) (n c i j : nat) :
  (c <= n)%nat ->
  (forall k l, (k < n)%nat -> (l < n)%nat ->
     sum_n S n (fun r => smul S (a r k) (a r l))
     = if Nat.eqb k l then s1 S else s0 S) ->
  sum_n S n (fun r =>
    smul S (sum_n S c (fun k => smul S (a i k) (a r k)))
           (sum_n S c (fun l => smul S (a r l) (a j l))))
  = sum_n S c (fun k => smul S (a i k) (a j k)).
Proof.
  intros Hc Horth.
  (* products of sums into double sums *)
  rewrite (sum_n_ext S n _
             (fun r => sum_n S c (fun k => sum_n S c (fun l =>
                smul S (smul S (a i k) (a j l))
                       (smul S (a r k) (a r l)))))).
  2:{ intros r _. rewrite sum_n_scale_r.
      apply sum_n_ext. intros k _. rewrite sum_n_scale_l.
      apply sum_n_ext. intros l _. ring. }
  (* the sum over rows innermost *)
  rewrite (sum_n_swap S semiring_add_comm semiring_add_assoc semiring_add_0_l
             n c).
  apply sum_n_ext. intros k Hk.
  rewrite (sum_n_swap S semiring_add_comm semiring_add_assoc semiring_add_0_l
             n c).
  rewrite (sum_n_ext S c _
             (fun l => smul S (smul S (a i k) (a j l))
                         (if Nat.eqb k l then s1 S else s0 S))).
  2:{ intros l Hl. rewrite <- sum_n_scale_l.
      rewrite Horth by lia. reflexivity. }
  rewrite (sum_n_delta c k (fun l => smul S (a i k) (a j l))).
  replace (Nat.ltb k c) with true by (symmetry; apply Nat.ltb_lt; lia).
  reflexivity.
Qed.

(** X9.  Over a commutative semiring of scalars, when [eigh] returns a
    square array of the size of [F] with orthonormal columns, the density
    [D] that [calculate_density_matrix] returns is a projector:
    [D @ D = D], for every occupied count. *)
Theorem density_matrix_is_idempotent
    (s : @scf (numpy S eigh)) (F : mat S) (w : list R) (V : mat S) :
  eigh F = Ok (w, V) ->
  nrows V = nrows F -> ncols V = nrows F ->
  orthonormal_columns S V (nrows F) ->
  orbitals_per_atom s <> 0 ->
  exists D : mat S,
    @calculate_density_matrix (numpy S eigh) s F = Ok D
    /\ mmatmul S D D = Ok D.
Proof.
  intros He Hr Hc Horth HK.
  eexists. split; [apply (density_matrix_value S eigh s F w V He Hr Hc HK) |].
  unfold mmatmul. simpl. rewrite Nat.eqb_refl. f_equal.
  apply mk_ext. intros i j Hi Hj.
  rewrite (sum_n_ext S (nrows F) _
             (fun r =>
                smul S
                  (sum_n S
                     (slice_stop (nrows F)
                        (((ionic_charge s / 2) * Z.of_nat (nrows F))
                         / orbitals_per_atom s))
                     (fun k => smul S (get S V i k) (get S V r k)))
                  (sum_n S
                     (slice_stop (nrows F)
                        (((ionic_charge s / 2) * Z.of_nat (nrows F))
                         / orbitals_per_atom s))
                     (fun l => smul S (get S V r l) (get S V j l))))).
  - apply projector_entry; [apply slice_stop_le | exact Horth].
  - intros r Hrow. rewrite !get_mk by assumption. reflexivity.
Qed.

End DensityProjector.

(** ** The comparison baseline of [scf_cycle] *)

Section LoopBaseline.

Context {np : NumPy} {ff : FockFast np}.

(** After [k] passes that reach the bottom of the loop body, the frame
    holds the [k]-th baseline. *)
Lemma scf_loop_next_baseline (mixing_fraction convergence_tolerance : float)
    (k : nat) (fr fr' : frame) (w w' : world) (F D : matrix) :
  stored_fock (obj w) = Ok F ->
  calculate_density_matrix (obj w) F = Ok D ->
  scf_loop mixing_fraction convergence_tolerance k fr w
    = (Ok (Next fr'), w') ->
  baseline mixing_fraction (old_density_matrix fr) D k
    = Ok (old_density_matrix fr').
Proof.
  intros HF HD. revert fr.
  induction k as [| k IH]; intros fr Hrun.
  - simpl in Hrun. injection Hrun as <- _. reflexivity.
  - change (scf_loop mixing_fraction convergence_tolerance (S k) fr w) with
      (bind (scf_body mixing_fraction convergence_tolerance fr)
         (fun c => match c with
                   | Next fr1 =>
                       scf_loop mixing_fraction convergence_tolerance k fr1
                   | Return value => ret (Return value)
                   end) w) in Hrun.
    unfold bind in Hrun.
    destruct (scf_body mixing_fraction convergence_tolerance fr w)
      as [[[fr1 | v] | e] w1] eqn:E; try discriminate.
    destruct (scf_body_next _ _ _ _ _ _ E)
      as [-> [F1 [D1 [HF1 [HD1 [_ [_ Hmix]]]]]]].
    rewrite HF in HF1. injection HF1 as <-.
    rewrite HD in HD1. injection HD1 as <-.
    rewrite baseline_shift, Hmix. simpl. apply IH. exact Hrun.
Qed.

(** X12.  A total energy returned by [kernel] comes either with
    [converged] set and nothing printed, or with the warning printed once
    and [converged] as it was before the call. *)
Theorem kernel_warns_unless_converged (w w' : world) (total : float) :
  kernel w = (Ok total, w') ->
  (converged (obj w') = true /\ stdout w' = stdout w)
  \/ (converged (obj w') = converged (obj w)
      /\ stdout w' = (stdout w ++ [warning])%list).
Proof.
  intros Hk. rewrite kernel_unfold in Hk.
  destruct (initialize_keeps w) as [_ [Hc1 Ho1]].
  destruct (initialize w) as [[[] | e] w1]; [| discriminate].
  simpl in Hc1, Ho1.
  pose proof (scf_cycle_outcomes default_max_scf_iterations
                default_mixing_fraction default_convergence_tolerance w1)
    as Hout.
  simpl in Hout.
  destruct (scf_cycle _ _ _ w1) as [[[D F] | e] w2]; [| discriminate].
  simpl in Hk.
  destruct (calculate_energy_scf _ _ F D) as [en | e]; [| discriminate].
  injection Hk as _ <-. simpl.
  destruct Hout as [[D' [F' H]] | [[_ [D' [F' H]]] | [[_ H] | [_ [e H]]]]];
    try discriminate; injection H as _ _ ->; simpl.
  - left. split; [reflexivity | exact Ho1].
  - right. split; [exact Hc1 | now rewrite Ho1].
Qed.

End LoopBaseline.

Section BaselineDecay.

Import ListModel ListModelMore.

Variable S : scalar.
Local Abbreviation R := (carrier S).
Variable eigh : mat S -> result (list R * mat S).
Variable ff : FockFast (numpy S eigh).
Variable sopp : R -> R.

Hypothesis scalars_ring :
  ring_theory (s0 S) (s1 S) (sadd S) (smul S) (ssub S) sopp eq.
Hypothesis literal_one : slit S 1%Q = s1 S.

Add Ring scalars_full_ring : scalars_ring.

(** The baseline after [k] updates, entry by entry. *)
Lemma baseline_entries (mixing_fraction : R) (D0 D : mat S) (k : nat) :
  same_shape S D0 D = true ->
  exists B : mat S,
    @baseline (numpy S eigh) mixing_fraction D0 D k = Ok B
    /\ nrows B = nrows D0 /\ ncols B = ncols D0
    /\ forall i j, (i < nrows D0)%nat -> (j < ncols D0)%nat ->
         ssub S (get S B i j) (get S D i j)
         = smul S (spow S (ssub S (s1 S) mixing_fraction) k)
                  (ssub S (get S D0 i j) (get S D i j)).
Proof.
  intros Hshape.
  assert (Hdims : nrows D0 = nrows D /\ ncols D0 = ncols D).
  { unfold same_shape in Hshape. apply andb_prop in Hshape.
    destruct Hshape as [A B]. split; now apply Nat.eqb_eq. }
  destruct Hdims as [Hr Hc].
  induction k as [| k [B [HB [HBr [HBc Hent]]]]].
  - exists D0. repeat split. intros i j _ _. simpl. ring.
  - simpl. rewrite HB. simpl.
    unfold mix. simpl. unfold madd, pointwise, same_shape. simpl.
    rewrite HBr, HBc, <- Hr, <- Hc, !Nat.eqb_refl. simpl.
    eexists. split; [reflexivity |].
    split; [reflexivity |]. split; [reflexivity |].
    intros i j Hi Hj. simpl.
    rewrite get_mk by assumption.
    unfold mscale. rewrite !get_mk by lia.
    rewrite literal_one.
    transitivity (smul S (ssub S (s1 S) mixing_fraction)
                    (ssub S (get S B i j) (get S D i j))); [ring |].
    rewrite (Hent i j Hi Hj). ring.
Qed.

(** X11.  Over a commutative ring of scalars, when the stored density and
    the density [D] a pass builds have one shape, [k] passes of the loop of
    [scf_cycle] without convergence leave a baseline whose difference from
    [D] is [(1 - mixing_fraction)^k] times the difference of the stored
    density from [D], entry by entry: the residual the convergence test
    measures depends on the system only through that first difference. *)
Theorem baseline_error_shrinks_geometrically
    (w w' : @world (numpy S eigh)) (mixing_fraction tolerance : R)
    (F D : mat S) (k : nat) (fr' : @frame (numpy S eigh)) :
  @stored_fock (numpy S eigh) ff (obj w) = Ok F ->
  @calculate_density_matrix (numpy S eigh) (obj w) F = Ok D ->
  same_shape S (density_matrix (obj w)) D = true ->
  @scf_loop (numpy S eigh) ff mixing_fraction tolerance k
    {| old_density_matrix := copy (density_matrix (obj w));
       local_density_matrix := None;
       local_fock_matrix := None |} w
  = (Ok (Next fr'), w') ->
  let D0 : mat S := density_matrix (obj w) in
  let B : mat S := old_density_matrix fr' in
  nrows B = nrows D0 /\ ncols B = ncols D0
  /\ forall i j, (i < nrows D0)%nat -> (j < ncols D0)%nat ->
       ssub S (get S B i j) (get S D i j)
       = smul S (spow S (ssub S (s1 S) mixing_fraction) k)
                (ssub S (get S D0 i j) (get S D i j)).
Proof.
  intros HF HD Hshape Hrun D0 B.
  pose proof (scf_loop_next_baseline _ _ _ _ _ _ _ _ _ HF HD Hrun) as Hb.
  simpl in Hb. unfold copy in Hb.
  destruct (baseline_entries mixing_fraction D0 D k Hshape)
    as [B' [HB' Hrest]].
  fold D0 in Hb. rewrite Hb in HB'. injection HB' as <-.
  exact Hrest.
Qed.

End BaselineDecay.

(** ** The further statements at concrete systems *)

Section MoreWitnesses.

Import ListModel ListModelMore Examples MoreExamples.

(** The one-orbital system, two iterations without convergence: the pair
    returned is the step from the stored [[[0]]]. *)
Lemma scf_cycle_returns_step_of_stored_density_witness :
  @stored_fock qnumpy qff atom = Ok (mat1 (-1))
  /\ @calculate_density_matrix qnumpy atom (mat1 (-1)) = Ok (mat1 1).
Proof.
  destruct (@scf_cycle_returns_step_of_stored_density qnumpy qff
              2 (1 # 4)%Q (1 # 10000)%Q atom_world
              (@Build_world qnumpy atom [warning]) (mat1 1) (mat1 (-1))
              ltac:(reflexivity)) as [HF [HD _]].
  split; assumption.
Defined.

(** [orbitals_per_atom = 0]: the density build of the first pass raises
    [ZeroDivisionError]. *)
Lemma scf_cycle_propagates_first_pass_error_witness :
  @scf_cycle qnumpy qff 100 (1 # 4)%Q (1 # 10000)%Q atom_k0_world
  = (Raise ZeroDivisionError, atom_k0_world).
Proof.
  apply (@scf_cycle_propagates_first_pass_error qnumpy qff).
  - lia.
  - right. left. exists (mat1 (-1)). split; reflexivity.
Defined.

(** [orbitals_per_atom = 0]: [initialize] stores [F = [[-1]]] and raises. *)
Lemma initialize_stores_fock_before_density_fails_witness :
  let half := @Build_world qnumpy
                (@set_fock_matrix qnumpy (mat1 (-1)) atom_k0) [] in
  @initialize qnumpy qff atom_k0_world = (Raise ZeroDivisionError, half)
  /\ @kernel qnumpy qff atom_k0_world = (Raise ZeroDivisionError, half)
  /\ fock_matrix (obj half) = Some (mat1 (-1))
  /\ density_matrix (obj half) = mat1 0.
Proof.
  exact (@initialize_stores_fock_before_density_fails qnumpy qff
           atom_k0_world (mat1 (-1)) ZeroDivisionError
           ltac:(reflexivity) ltac:(reflexivity)).
Defined.

(** [kernel] on the one-orbital system: [F1 = [[-1]]], [D1 = [[1]]],
    [F2 = [[-1/2]]], [D2 = [[1]]], energy [-3/2], total [-1/2]. *)
Lemma kernel_is_two_steps_witness :
  exists F1 D1 F2 D2 e,
    @fast_fock_matrix qnumpy qff atom (mat1 (-1)) (mat1 (1 # 2)) (mat1 0)
      = Ok F1
    /\ @calculate_density_matrix qnumpy atom F1 = Ok D1
    /\ @fast_fock_matrix qnumpy qff atom (mat1 (-1)) (mat1 (1 # 2)) D1
       = Ok F2
    /\ @calculate_density_matrix qnumpy atom F2 = Ok D2
    /\ @calculate_energy_scf qnumpy atom (mat1 (-1)) F2 D2 = Ok e
    /\ (-1 # 2)%Q = qadd 1 e
    /\ density_matrix atom_solved = D2
    /\ fock_matrix atom_solved = Some F2
    /\ energy_scf atom_solved = Some e
    /\ total_energy atom_solved = Some (-1 # 2)%Q.
Proof.
  exact (@kernel_is_two_steps qnumpy qff atom_world atom_solved_world
           (-1 # 2)%Q ltac:(reflexivity)).
Defined.

(** The one-orbital system with [converged] already [True]. *)
Lemma converged_is_never_cleared_witness :
  let w := @mark_converged qnumpy atom_world in
  converged (obj (snd (@initialize qnumpy qff w))) = true
  /\ (forall (max_scf_iterations : Z) (mixing_fraction tolerance : Q),
        converged (obj (snd (@scf_cycle qnumpy qff max_scf_iterations
                               mixing_fraction tolerance w))) = true)
  /\ converged (obj (snd (@kernel qnumpy qff w))) = true.
Proof.
  exact (@converged_is_never_cleared qnumpy qff
           (@mark_converged qnumpy atom_world) ltac:(reflexivity)).
Defined.

(** [kernel] on the one-orbital system converges at once and prints
    nothing. *)
Lemma kernel_warns_unless_converged_witness :
  (converged atom_solved = true /\ stdout atom_solved_world = [])
  \/ (converged atom_solved = false
      /\ stdout atom_solved_world = [warning]).
Proof.
  exact (@kernel_warns_unless_converged qnumpy qff atom_world
           atom_solved_world (-1 # 2)%Q ltac:(reflexivity)).
Defined.

Lemma identity2_unit_columns :
  forall k, (k < 2)%nat ->
    sum_n integers 2 (fun i =>
      get integers (identity integers 2) i k
      * get integers (identity integers 2) i k) = 1.
Proof.
  intros k Hk. destruct k as [| [| k]]; [reflexivity | reflexivity | lia].
Qed.

Lemma identity2_orthonormal :
  orthonormal_columns integers (identity integers 2) 2.
Proof.
  intros k l Hk Hl.
  destruct k as [| [| k]]; [| | lia];
    (destruct l as [| [| l]]; [reflexivity | reflexivity | lia]).
Qed.

Lemma integers_semiring : semi_ring_theory 0 1 Z.add Z.mul eq.
Proof.
  constructor; intros.
  - apply Z.add_0_l.
  - apply Z.add_comm.
  - apply Z.add_assoc.
  - apply Z.mul_1_l.
  - apply Z.mul_0_l.
  - apply Z.mul_comm.
  - apply Z.mul_assoc.
  - apply Z.mul_add_distr_r.
Qed.

(** [F = diag(1, 2)] with [Q = -2], [K = 2]: the count is -1, the slice
    [:, :-1] keeps one of the two columns, and the trace is 1. *)
Lemma density_trace_counts_kept_columns_witness :
  exists D : mat integers,
    @calculate_density_matrix znumpy pair_negative diag12 = Ok D
    /\ D = Build_mat integers 2 2 [[1; 0]; [0; 0]]
    /\ mtranspose integers D = D
    /\ trace integers D = 1.
Proof.
  destruct (density_trace_counts_kept_columns
              integers (eigh_diagonal integers) pair_negative diag12
              [1; 2] (identity integers 2)
              Z.add_comm Z.add_assoc Z.add_0_l Z.mul_comm
              eq_refl eq_refl eq_refl identity2_unit_columns
              ltac:(discriminate))
    as [D [Hd [_ [_ [Hsym [Htr _]]]]]].
  exists D. split; [exact Hd |]. split; [| split; [exact Hsym | exact Htr]].
  vm_compute in Hd. injection Hd as <-. reflexivity.
Defined.

(** [F = diag(1, 2)] with [Q = 2], [K = 2]: [D = [[1, 0], [0, 0]]] is a
    projector. *)
Lemma density_matrix_is_idempotent_witness :
  exists D : mat integers,
    @calculate_density_matrix znumpy pair diag12 = Ok D
    /\ mmatmul integers D D = Ok D.
Proof.
  exact (density_matrix_is_idempotent
           integers (eigh_diagonal integers) integers_semiring
           pair diag12 [1; 2] (identity integers 2)
           eq_refl eq_refl eq_refl identity2_orthonormal
           ltac:(discriminate)).
Defined.

(** [Q = 1], [K = 2]: the zero density for [F = diag(1, 2)], and the
    exception of the eigensolver for a 2 by 3 array. *)
Lemma density_is_zero_without_occupied_orbital_witness :
  @calculate_density_matrix znumpy pair_single diag12
  = Ok (zeros integers 2 2)
  /\ @calculate_density_matrix znumpy pair_single
       (Build_mat integers 2 3 [[1; 0; 0]; [0; 2; 0]])
     = Raise LinAlgError.
Proof.
  split.
  - refine (proj1 (proj2 (density_is_zero_without_occupied_orbital
                            integers (eigh_diagonal integers) pair_single
                            diag12 ltac:(discriminate)) _)
              [1; 2] (identity integers 2) _); reflexivity.
  - refine (proj2 (proj2 (density_is_zero_without_occupied_orbital
                            integers (eigh_diagonal integers) pair_single
                            (Build_mat integers 2 3 [[1; 0; 0]; [0; 2; 0]])
                            ltac:(discriminate)) _)
              LinAlgError _); reflexivity.
Defined.

(** The two-orbital system built with the zero density, mixing fraction 2
    and tolerance 0: two passes, baselines [[[2, 0], [0, 0]]] and the zero
    array; at entry (0, 0), [0 - 1 = (1 - 2)^2 * (0 - 1)]. *)
Lemma baseline_error_shrinks_geometrically_witness :
  let B := zeros integers 2 2 in
  let D := Build_mat integers 2 2 [[1; 0]; [0; 0]] in
  get integers B 0 0 - get integers D 0 0
  = spow integers (1 - 2) 2
    * (get integers (zeros integers 2 2) 0 0 - get integers D 0 0).
Proof.
  refine (proj2 (proj2
            (baseline_error_shrinks_geometrically
               integers (eigh_diagonal integers) zff Z.opp Zth eq_refl
               pair_empty_world pair_empty_world 2 0
               diag12 (Build_mat integers 2 2 [[1; 0]; [0; 0]]) 2
               (@Build_frame znumpy (zeros integers 2 2)
                  (Some (Build_mat integers 2 2 [[1; 0]; [0; 0]]))
                  (Some diag12))
               _ _ _ _)) 0%nat 0%nat _ _).
  - reflexivity.
  - reflexivity.
  - reflexivity.
  - reflexivity.
  - simpl. lia.
  - simpl. lia.
Defined.

End MoreWitnesses.

(** ** What the results depend on *)

Section ResultInputs.

Context {np : NumPy} {ff : FockFast np}.

Lemma stored_fock_reads (s s' : scf) :
  same_cycle_inputs s s' -> stored_fock s' = stored_fock s.
Proof.
  intros [HH [HM [HD _]]]. unfold stored_fock, fast_fock_matrix.
  now rewrite HH, HM, HD.
Qed.

Lemma scf_body_reads (mixing_fraction convergence_tolerance : float)
    (fr : frame) (w w2 : world) :
  same_cycle_inputs (obj w) (obj w2) ->
  fst (scf_body mixing_fraction convergence_tolerance fr w2)
  = fst (scf_body mixing_fraction convergence_tolerance fr w).
Proof.
  intros Hin.
  pose proof (stored_fock_reads _ _ Hin) as HF.
  destruct Hin as [_ [_ [_ [HQ HK]]]].
  unfold stored_fock in HF.
  unfold scf_body. autorewrite with run. rewrite HF.
  destruct (fast_fock_matrix (obj w) _ _ _) as [F | e]; [| reflexivity].
  autorewrite with run.
  rewrite (calculate_density_matrix_reads_counts (obj w) (obj w2) F HQ HK).
  destruct (calculate_density_matrix (obj w) F) as [D | e]; [| reflexivity].
  autorewrite with run.
  destruct (arr_sub (old_density_matrix fr) D) as [diff | e];
    [| reflexivity].
  destruct (float_lt (linalg_norm diff) convergence_tolerance);
    [reflexivity |].
  autorewrite with run.
  destruct (arr_add _ _) as [mixed | e]; reflexivity.
Qed.

Lemma scf_loop_reads (mixing_fraction convergence_tolerance : float)
    (n : nat) (fr : frame) (w w2 : world) :
  same_cycle_inputs (obj w) (obj w2) ->
  fst (scf_loop mixing_fraction convergence_tolerance n fr w2)
  = fst (scf_loop mixing_fraction convergence_tolerance n fr w).
Proof.
  intros Hin. revert fr. induction n as [| n IH]; intros fr.
  - reflexivity.
  - change (scf_loop mixing_fraction convergence_tolerance (S n) fr w) with
      (bind (scf_body mixing_fraction convergence_tolerance fr)
         (fun c => match c with
                   | Next fr1 =>
                       scf_loop mixing_fraction convergence_tolerance n fr1
                   | Return value => ret (Return value)
                   end) w).
    change (scf_loop mixing_fraction convergence_tolerance (S n) fr w2) with
      (bind (scf_body mixing_fraction convergence_tolerance fr)
         (fun c => match c with
                   | Next fr1 =>
                       scf_loop mixing_fraction convergence_tolerance n fr1
                   | Return value => ret (Return value)
                   end) w2).
    pose proof (scf_body_reads mixing_fraction convergence_tolerance
                  fr w w2 Hin) as Hb.
    unfold bind.
    destruct (scf_body mixing_fraction convergence_tolerance fr w)
      as [[c | e] w1] eqn:E1;
      destruct (scf_body mixing_fraction convergence_tolerance fr w2)
        as [[c2 | e2] w1'] eqn:E2;
      simpl in Hb; try discriminate.
    + injection Hb as ->.
      destruct c as [fr1 | v]; [| reflexivity].
      destruct (scf_body_next _ _ _ _ _ _ E1) as [-> _].
      destruct (scf_body_next _ _ _ _ _ _ E2) as [-> _].
      apply IH.
    + injection Hb as ->. reflexivity.
Qed.

Lemma scf_cycle_reads
    (max_scf_iterations : Z) (mixing_fraction convergence_tolerance : float)
    (w w2 : world) :
  same_cycle_inputs (obj w) (obj w2) ->
  fst (scf_cycle max_scf_iterations mixing_fraction convergence_tolerance w2)
  = fst (scf_cycle max_scf_iterations mixing_fraction
           convergence_tolerance w).
Proof.
  intros Hin. rewrite !scf_cycle_unfold.
  assert (HD : density_matrix (obj w2) = density_matrix (obj w))
    by apply Hin.
  rewrite HD.
  pose proof (scf_loop_reads mixing_fraction convergence_tolerance
                (Z.to_nat max_scf_iterations)
                {| old_density_matrix := copy (density_matrix (obj w));
                   local_density_matrix := None;
                   local_fock_matrix := None |} w w2 Hin) as Hl.
  destruct (scf_loop _ _ _ _ w) as [r wa];
    destruct (scf_loop _ _ _ _ w2) as [r2 wb].
  simpl in Hl. subst r2.
  destruct r as [[fr | v] | e]; try reflexivity.
  destruct (local_density_matrix fr), (local_fock_matrix fr); reflexivity.
Qed.

(** X13.  What [scf_cycle] returns or raises is fixed by its arguments and
    the attributes [hamiltonian_matrix], [interaction_matrix],
    [density_matrix], [ionic_charge] and [orbitals_per_atom]; what [kernel]
    returns or raises by these and [energy_ion].  Neither depends on
    [chi_tensor], on [converged], on a stored [fock_matrix] or energy, or
    on what was printed before. *)
Theorem results_ignore_chi_tensor_and_flags (w w2 : world) :
  same_cycle_inputs (obj w) (obj w2) ->
  (forall (max_scf_iterations : Z)
          (mixing_fraction convergence_tolerance : float),
     fst (scf_cycle max_scf_iterations mixing_fraction
            convergence_tolerance w2)
     = fst (scf_cycle max_scf_iterations mixing_fraction
              convergence_tolerance w))
  /\ (energy_ion (obj w2) = energy_ion (obj w) ->
      fst (kernel w2) = fst (kernel w)).
Proof.
  intros Hin. split.
  - intros max mixf tol. now apply scf_cycle_reads.
  - intros HE. rewrite !kernel_unfold, !initialize_unfold.
    rewrite (stored_fock_reads _ _ Hin).
    destruct Hin as [HH [HM [HD [HQ HK]]]].
    destruct (stored_fock (obj w)) as [F1 | e]; [| reflexivity].
    rewrite (calculate_density_matrix_reads_counts (obj w) (obj w2) F1 HQ HK).
    destruct (calculate_density_matrix (obj w) F1) as [D1 | e];
      [| reflexivity].
    set (w1 := {| obj := set_density_matrix D1 (set_fock_matrix F1 (obj w));
                  stdout := stdout w |}).
    set (w1' := {| obj := set_density_matrix D1 (set_fock_matrix F1 (obj w2));
                   stdout := stdout w2 |}).
    assert (Hin1 : same_cycle_inputs (obj w1) (obj w1'))
      by (repeat split; assumption).
    pose proof (scf_cycle_reads default_max_scf_iterations
                  default_mixing_fraction default_convergence_tolerance
                  w1 w1' Hin1) as Hc.
    pose proof (scf_cycle_keeps default_max_scf_iterations
                  default_mixing_fraction default_convergence_tolerance w1)
      as [[HHa [_ [_ [HEa _]]]] _].
    pose proof (scf_cycle_keeps default_max_scf_iterations
                  default_mixing_fraction default_convergence_tolerance w1')
      as [[HHb [_ [_ [HEb _]]]] _].
    destruct (scf_cycle _ _ _ w1) as [r wa];
      destruct (scf_cycle _ _ _ w1') as [r2 wb].
    simpl in Hc, HHa, HEa, HHb, HEb. subst r2.
    destruct r as [[D F] | e]; [| reflexivity].
    simpl. rewrite HHa, HHb, HEa, HEb, HH, HE.
    unfold calculate_energy_scf.
    destruct (arr_add (hamiltonian_matrix (obj w)) F) as [sum | e];
      [| reflexivity].
    simpl. destruct (einsum2 "pq,pq" sum D); reflexivity.
Qed.

End ResultInputs.

Section ResultInputsWitness.

Import ListModel Examples MoreExamples.

(** The one-orbital system against the same system with another
    [chi_tensor], [converged] set and a stored [fock_matrix]. *)
Lemma results_ignore_chi_tensor_and_flags_witness :
  (forall (max_scf_iterations : Z) (mixing_fraction tolerance : Q),
     fst (@scf_cycle qnumpy qff max_scf_iterations mixing_fraction
            tolerance atom_other_world)
     = fst (@scf_cycle qnumpy qff max_scf_iterations mixing_fraction
              tolerance atom_world))
  /\ fst (@kernel qnumpy qff atom_other_world)
     = fst (@kernel qnumpy qff atom_world).
Proof.
  destruct (@results_ignore_chi_tensor_and_flags qnumpy qff
              atom_world atom_other_world
              ltac:(repeat split)) as [Hc Hk].
  split; [exact Hc | exact (Hk eq_refl)].
Defined.

End ResultInputsWitness.

(** ** [scf_cycle] with no iteration allowed *)

Section EmptyRange.

Import ListModel Examples.

(** The one-orbital system with [max_scf_iterations = 0]: the Fock build
    and the density build succeed, no comparison falls below the tolerance
    (none is made) and the baseline is the stored density; [scf_cycle]
    prints the warning and raises [UnboundLocalError] instead of returning
    a pair. *)
Lemma scf_cycle_without_iterations_raises :
  @stored_fock qnumpy qff atom = Ok (mat1 (-1))
  /\ @calculate_density_matrix qnumpy atom (mat1 (-1)) = Ok (mat1 1)
  /\ @no_convergence_before qnumpy (1 # 4)%Q (1 # 10000)%Q
       (copy (density_matrix atom)) (mat1 1) (Z.to_nat 0)
  /\ @baseline qnumpy (1 # 4)%Q (copy (density_matrix atom)) (mat1 1)
       (Z.to_nat 0) = Ok (mat1 0)
  /\ @scf_cycle qnumpy qff 0 (1 # 4)%Q (1 # 10000)%Q atom_world
     = (Raise (UnboundLocalError "density_matrix"),
        {| obj := atom; stdout := [warning] |})
  /\ fst (@scf_cycle qnumpy qff 0 (1 # 4)%Q (1 # 10000)%Q atom_world)
     <> Ok (mat1 1, mat1 (-1)).
Proof.
  split; [reflexivity |]. split; [reflexivity |].
  split; [intros j Hj; simpl in Hj; lia |].
  split; [reflexivity |]. split; [reflexivity |].
  discriminate.
Qed.

End EmptyRange.
